(** * twittertail: the timeline client [GetTweetsAPI]

    A shallow embedding of [app/get_tweets_api.py] and the properties of its
    session bootstrap, user-id resolution and timeline fetch.

    Python values are modelled as follows.
    - A [str] is the list of its Unicode code points ([list N]); the
      line-break, white-space and decimal-digit tables below are those of
      CPython 3.11 (Unicode 14.0).
    - An [int] is an unbounded [Z]; [int(s)] refuses a literal of more
      than 4300 digits, the default conversion limit of CPython.
    - A parsed JSON document is a [json] tree; a JSON object is a [gmap]
      from keys to values, so keys are unique as in a Python [dict].
    - Exceptions are values of type [exception]; a computation that may
      raise returns a [result].
    - The instance [self] is a record of optional attributes (an attribute
      that has not been assigned yet is [None]); methods are computations in
      a state-and-exception monad over the instance and the outside world. *)

From Stdlib Require Import ZArith String Ascii.
From stdpp Require Import gmap list sorting.

#[local] Set Warnings "-register-all".

(** ** Python strings *)

Abbreviation pystr := (list N).

(** [lit "abc"] is the Python string literal ['abc']. *)
Definition lit (s : string) : pystr :=
  map N_of_ascii (list_ascii_of_string s).

Module Py.

(** *** [str.splitlines] and [str.join] *)

(** The line boundaries of [str.splitlines]: LF, VT, FF, CR, FS, GS, RS,
    NEL, LINE SEPARATOR and PARAGRAPH SEPARATOR. *)
Definition linebreaks : list N :=
  [10; 11; 12; 13; 28; 29; 30; 133; 8232; 8233]%N.

Definition is_linebreak (c : N) : bool := existsb (N.eqb c) linebreaks.

(** [s.splitlines()]: the maximal runs between line boundaries; CR LF
    counts as one boundary and a final boundary opens no empty line. *)
Fixpoint splitlines (s : pystr) : list pystr :=
  match s with
  | [] => []
  | c :: s' =>
      if is_linebreak c then
        if (c =? 13)%N then
          match s' with
          | c' :: s'' =>
              if (c' =? 10)%N then [] :: splitlines s'' else [] :: splitlines s'
          | [] => [] :: splitlines s'
          end
        else [] :: splitlines s'
      else
        match splitlines s' with
        | [] => [[c]]
        | line :: lines => (c :: line) :: lines
        end
  end.

(** [sep.join(l)]. *)
Fixpoint join (sep : pystr) (l : list pystr) : pystr :=
  match l with
  | [] => []
  | x :: xs =>
      match xs with
      | [] => x
      | _ :: _ => x ++ sep ++ join sep xs
      end
  end.

(** *** [str(n)] for an integer *)

Definition digit_char (d : N) : N := (48 + d)%N.

(** The decimal digits of [n], most significant first, put in front of
    [acc]; [fuel] bounds the number of further digits. *)
Fixpoint digits (fuel : nat) (n : N) (acc : pystr) : pystr :=
  let acc' := digit_char (n mod 10) :: acc in
  match fuel with
  | O => acc'
  | S fuel' => if (n / 10 =? 0)%N then acc' else digits fuel' (n / 10) acc'
  end.

Definition str_N (n : N) : pystr := digits (N.to_nat (N.log2 n)) n [].

(** [str(z)]: the decimal rendering of [z].  CPython refuses to render
    an integer of more than 4300 digits; [get_tweets] renders only what
    [int] below returned, which has at most that many. *)
Definition str (z : Z) : pystr :=
  match z with
  | Z0 => str_N 0
  | Zpos p => str_N (Npos p)
  | Zneg p => 45%N :: str_N (Npos p)
  end.

(** *** [int(s)] for a string *)

(** The characters [int] skips at both ends: the white space of C (TAB,
    LF, VT, FF, CR, SPACE) and, beyond ASCII, the characters with
    [str.isspace].  The separators U+001C to U+001F are not skipped. *)
Definition spaces : list N :=
  [9; 10; 11; 12; 13; 32; 133; 160; 5760;
   8192; 8193; 8194; 8195; 8196; 8197; 8198; 8199; 8200; 8201; 8202;
   8232; 8233; 8239; 8287; 12288]%N.

Definition is_space (c : N) : bool := existsb (N.eqb c) spaces.

Fixpoint lstrip (s : pystr) : pystr :=
  match s with
  | [] => []
  | c :: s' => if is_space c then lstrip s' else s
  end.

Definition rstrip (s : pystr) : pystr := rev (lstrip (rev s)).

Definition strip (s : pystr) : pystr := rstrip (lstrip s).

(** The ASCII digits, the ones [str] writes. *)
Definition is_digit (c : N) : bool := ((48 <=? c) && (c <=? 57))%N.

(** The digits zero of Unicode 14.0: each is followed by the digits one
    to nine of its script (the last five blocks of ten are the
    mathematical digits). *)
Definition decimal_zeros : list N :=
  [48; 1632; 1776; 1984; 2406; 2534; 2662; 2790; 2918; 3046; 3174; 3302;
   3430; 3558; 3664; 3792; 3872; 4160; 4240; 6112; 6160; 6470; 6608; 6784;
   6800; 6992; 7088; 7232; 7248; 42528; 43216; 43264; 43472; 43504; 43600;
   44016; 65296; 66720; 68912; 69734; 69872; 69942; 70096; 70384; 70736;
   70864; 71248; 71360; 71472; 71904; 72016; 72784; 73040; 73120; 92768;
   92864; 93008; 120782; 120792; 120802; 120812; 120822; 123200; 123632;
   125264; 130032]%N.

(** The value of a decimal digit of any script ([unicodedata.decimal]);
    [None] for every other character. *)
Definition decimal (c : N) : option N :=
  (λ zero, c - zero)%N
    <$> List.find (λ zero, (zero <=? c) && (c <? zero + 10))%N decimal_zeros.

Definition is_decimal (c : N) : bool :=
  match decimal c with
  | Some _ => true
  | None => false
  end.

(** A run of decimal digits in which single underscores may separate
    digits; [prev] tells whether the previous character was a digit. *)
Fixpoint parse_digits (acc : N) (prev : bool) (s : pystr) : option N :=
  match s with
  | [] => if prev then Some acc else None
  | c :: s' =>
      match decimal c with
      | Some d => parse_digits (acc * 10 + d) true s'
      | None =>
          if (c =? 95)%N && prev then parse_digits acc false s' else None
      end
  end.

(** [sys.get_int_max_str_digits()], by default. *)
Definition max_str_digits : nat := 4300.

(** The number of digits in a literal. *)
Definition count_digits (s : pystr) : nat :=
  List.length (List.filter is_decimal s).

(** [int(s)] in base ten, [None] standing for [ValueError]: white space
    is dropped at both ends, one sign is allowed, then [parse_digits];
    a literal of more than [max_str_digits] digits is refused. *)
Definition int (s : pystr) : option Z :=
  match strip s with
  | [] => None
  | c :: r =>
      if (max_str_digits <? count_digits (c :: r))%nat then None
      else if (c =? 43)%N then Z.of_N <$> parse_digits 0 false r
      else if (c =? 45)%N then (λ n, - Z.of_N n)%Z <$> parse_digits 0 false r
      else Z.of_N <$> parse_digits 0 false (c :: r)
  end.

(** The number of decimal digits of [z], and whether it is within the
    conversion limit. *)
Definition digit_count (z : Z) : nat := List.length (str_N (Z.abs_N z)).

Definition within_limit (z : Z) : bool :=
  (digit_count z <=? max_str_digits)%nat.

(** *** [template % arg] *)

(** [template % arg] for a string [arg] and a template whose only
    conversion is one [%s]. *)
Fixpoint percent (template arg : pystr) : pystr :=
  match template with
  | [] => []
  | c :: rest =>
      match rest with
      | c' :: rest' =>
          if (c =? 37)%N && (c' =? 115)%N then arg ++ rest'
          else c :: percent rest arg
      | [] => [c]
      end
  end.

(** *** [list.sort(reverse=True)] and slicing *)

Definition descending : relation Z := λ x y, (y ≤ x)%Z.

#[global] Instance descending_dec : RelDecision descending.
Proof. intros x y. unfold descending. apply _. Defined.

(** [l.sort(reverse=True)] on a list of integers. *)
Definition sort_reverse (l : list Z) : list Z := merge_sort descending l.

(** [l[:count]]: a negative [count] is taken from the end. *)
Definition slice_to {A} (l : list A) (count : Z) : list A :=
  if (count <? 0)%Z then take (Z.to_nat (Z.of_nat (List.length l) + count)) l
  else take (Z.to_nat count) l.

End Py.


(** ** Parsed JSON, exceptions and results *)

(** What [r.json()] returns.  A float is kept as its literal: the client
    never computes with one. *)
Inductive json : Type :=
| JNull
| JBool (b : bool)
| JInt (n : Z)
| JFloat (literal : pystr)
| JStr (s : pystr)
| JList (l : list json)
| JDict (d : gmap pystr json).

(** The exceptions that occur.  [TransportException] stands for whatever
    [requests] raises from [get] or [json], with its [str()].  The argument
    of a [FailedToGetTweetsException] is a message, a message template
    filled with [str(e)], or the caught exception object itself. *)
Inductive exception : Type :=
| TransportException (text : pystr)
| KeyError (key : pystr)
| TypeError
| ValueError
| AttributeError (attr : pystr)
| FailedToGetTwitterValueException (cause : pystr)
| FailedToGetTweetsException (arg : exc_arg)
with exc_arg : Type :=
| Message (s : pystr)
| MessageWith (template : pystr) (e : exception)
| Caught (e : exception).

Inductive result (A : Type) : Type :=
| Return (a : A)
| Raise (e : exception).
Arguments Return {A} a.
Arguments Raise {A} e.

#[global] Instance result_ret : MRet result := λ A a, Return a.
#[global] Instance result_bind : MBind result := λ A B f m,
  match m with
  | Return a => f a
  | Raise e => Raise e
  end.

(** [try: body except ...: handler]; the handler answers [None] for an
    exception its [except] clause does not match. *)
Definition try_except {A} (body : result A)
    (handler : exception → option (result A)) : result A :=
  match body with
  | Return a => Return a
  | Raise e =>
      match handler e with
      | Some h => h
      | None => Raise e
      end
  end.

(** [v[key]] for a string [key]: only a [dict] can be indexed by a string. *)
Definition getitem (v : json) (key : pystr) : result json :=
  match v with
  | JDict d =>
      match d !! key with
      | Some x => Return x
      | None => Raise (KeyError key)
      end
  | _ => Raise TypeError
  end.

(** [v.keys()]. *)
Definition keys (v : json) : result (list pystr) :=
  match v with
  | JDict d => Return (map fst (map_to_list d))
  | _ => Raise (AttributeError (lit "keys"))
  end.

(** [v.splitlines()]. *)
Definition splitlines (v : json) : result (list pystr) :=
  match v with
  | JStr s => Return (Py.splitlines s)
  | _ => Raise (AttributeError (lit "splitlines"))
  end.

(** [int(x)] for a string [x]. *)
Definition int (x : pystr) : result Z :=
  match Py.int x with
  | Some z => Return z
  | None => Raise ValueError
  end.

(** ** The timeline fetch: lines 135-144 of [get_tweets] *)

(** [' '.join(tweets_json[str(x)]['full_text'].splitlines())]. *)
Definition tweet_text (tweets_json : json) (x : Z) : result pystr :=
  post ← getitem tweets_json (Py.str x);
  full_text ← getitem post (lit "full_text");
  lines ← splitlines full_text;
  mret (Py.join (lit " ") lines).

(** The second [try] block of [get_tweets] with its [except KeyError]. *)
Definition tweets_of_timeline (timeline_json : json) (count : Z)
    : result (list pystr) :=
  try_except
    (globalObjects ← getitem timeline_json (lit "globalObjects");
     tweets_json ← getitem globalObjects (lit "tweets");
     ks ← keys tweets_json;
     tweet_ids ← mapM int ks;
     let tweet_ids := Py.sort_reverse tweet_ids in
     mapM (tweet_text tweets_json) (Py.slice_to tweet_ids count))
    (λ e, match e with
          | KeyError _ =>
              Some (Raise (FailedToGetTweetsException
                             (Message (lit "Failed to get tweets"))))
          | _ => None
          end).

(** The second [try] block of [__get_user_id] with its [except KeyError]. *)
Definition user_id_of_response (graph_ql_json : json) : result json :=
  try_except
    (data ← getitem graph_ql_json (lit "data");
     user ← getitem data (lit "user");
     getitem user (lit "rest_id"))
    (λ e, match e with
          | KeyError _ =>
              Some (Raise (FailedToGetTweetsException
                 (Message (lit "Failed to get the user id, could not find user rest_id in GraphQL response"))))
          | _ => None
          end).

(** ** The outside world *)

(** Modelled from the spec: the Token Provider ([app.get_twitter_values.
    GetTwitterValues], which is not among the sources).  Each of its three
    accessors returns an opaque string or fails with a value-unavailable
    error ([FailedToGetTwitterValueException]) that carries a cause. *)
Inductive provided : Type :=
| Value (s : pystr)
| Unavailable (cause : pystr).

(** The string [template % arg] where [arg] is any parsed value. *)
Inductive formatted : Type :=
| Percent (template : pystr) (arg : json).

(** What [session.get(url, params=..., headers=...)] is called with. *)
Record request : Type := Request {
  req_url : formatted;
  req_params : gmap pystr pystr;
  req_headers : gmap pystr pystr
}.

(** A [requests] session is named by a handle. *)
Definition session : Type := N.

(** Everything outside the client: the token provider and the network.
    [session_get_json s req] is [s.get(...)] followed by [.json()]; it
    yields the parsed body, or the text of the exception either call
    raised.  The world may change with every call. *)
Class World (W : Type) : Type := {
  get_guest_token : W → provided * W;
  get_bearer_token : W → provided * W;
  get_query_id : W → provided * W;
  requests_session : W → session * W;
  session_get_json : session → request → W → (json + pystr) * W
}.

(** ** The instance and the method monad *)

(** The attributes of a [GetTweetsAPI] instance; [None] is an attribute
    that has not been assigned. *)
Record GetTweetsAPI : Type := Instance {
  user : option pystr;
  gt : option pystr;
  bearer_token : option pystr;
  query_id : option pystr;
  s_twitter : option session;
  headers : option (gmap pystr pystr);
  user_id : option json
}.

(** The object [__init__] receives. *)
Definition blank : GetTweetsAPI :=
  Instance None None None None None None None.

Definition set_user (v : pystr) (self : GetTweetsAPI) : GetTweetsAPI :=
  Instance (Some v) (gt self) (bearer_token self) (query_id self)
    (s_twitter self) (headers self) (user_id self).
Definition set_gt (v : pystr) (self : GetTweetsAPI) : GetTweetsAPI :=
  Instance (user self) (Some v) (bearer_token self) (query_id self)
    (s_twitter self) (headers self) (user_id self).
Definition set_bearer_token (v : pystr) (self : GetTweetsAPI) : GetTweetsAPI :=
  Instance (user self) (gt self) (Some v) (query_id self)
    (s_twitter self) (headers self) (user_id self).
Definition set_query_id (v : pystr) (self : GetTweetsAPI) : GetTweetsAPI :=
  Instance (user self) (gt self) (bearer_token self) (Some v)
    (s_twitter self) (headers self) (user_id self).
Definition set_s_twitter (v : session) (self : GetTweetsAPI) : GetTweetsAPI :=
  Instance (user self) (gt self) (bearer_token self) (query_id self)
    (Some v) (headers self) (user_id self).
Definition set_headers (v : gmap pystr pystr) (self : GetTweetsAPI)
    : GetTweetsAPI :=
  Instance (user self) (gt self) (bearer_token self) (query_id self)
    (s_twitter self) (Some v) (user_id self).
Definition set_user_id (v : json) (self : GetTweetsAPI) : GetTweetsAPI :=
  Instance (user self) (gt self) (bearer_token self) (query_id self)
    (s_twitter self) (headers self) (Some v).

(** A method body: it reads and writes [self] and the world, and returns
    or raises.  What was written before a [raise] stays written. *)
Definition M (W A : Type) : Type :=
  GetTweetsAPI * W → result A * (GetTweetsAPI * W).

#[global] Instance M_ret W : MRet (M W) := λ A a st, (Return a, st).
#[global] Instance M_bind W : MBind (M W) := λ A B f m st,
  match m st with
  | (Return a, st') => f a st'
  | (Raise e, st') => (Raise e, st')
  end.

Definition raise {W A} (e : exception) : M W A := λ st, (Raise e, st).

Definition lift {W A} (r : result A) : M W A := λ st, (r, st).

(** [self.name] *)
Definition getattr {W A} (name : string) (field : GetTweetsAPI → option A)
    : M W A := λ st,
  match field st.1 with
  | Some v => (Return v, st)
  | None => (Raise (AttributeError (lit name)), st)
  end.

(** [self.name = v] *)
Definition setattr {W} (update : GetTweetsAPI → GetTweetsAPI) : M W () :=
  λ st, (Return (), (update st.1, st.2)).

(** A call that only touches the world. *)
Definition extern {W A} (f : W → A * W) : M W A := λ st,
  let '(a, w') := f st.2 in (Return a, (st.1, w')).

Definition try_exceptM {W A} (body : M W A)
    (handler : exception → option (M W A)) : M W A := λ st,
  match body st with
  | (Return a, st') => (Return a, st')
  | (Raise e, st') =>
      match handler e with
      | Some h => h st'
      | None => (Raise e, st')
      end
  end.

(** ** The methods of [GetTweetsAPI] *)

Section Methods.
Context `{World W}.

(** An accessor of [GetTwitterValues]. *)
Definition accessor (f : W → provided * W) : M W pystr :=
  p ← extern f;
  match p with
  | Value s => mret s
  | Unavailable cause => raise (FailedToGetTwitterValueException cause)
  end.

(** [r = self.s_twitter.get(url, params=params, headers=headers)] then
    [r.json()]. *)
Definition get_json (s : session) (req : request) : M W json :=
  r ← extern (session_get_json s req);
  match r with
  | inl body => mret body
  | inr text => raise (TransportException text)
  end.

Definition __get_twitter_values : M W (pystr * pystr * pystr) :=
  try_exceptM
    (gt ← accessor get_guest_token;
     bearer_token ← accessor get_bearer_token;
     query_id ← accessor get_query_id;
     mret (gt, bearer_token, query_id))
    (λ e, match e with
          | FailedToGetTwitterValueException _ =>
              Some (raise (FailedToGetTweetsException (Caught e)))
          | _ => None
          end).

Definition user_lookup_url : pystr :=
  lit "https://api.twitter.com/graphql/%s/UserByScreenName".

(** ['{"screen_name":"%s","withHighlightedLabel":true}'] *)
Definition user_lookup_variables : pystr :=
  lit "{" ++ [34%N] ++ lit "screen_name" ++ [34%N] ++ lit ":" ++ [34%N]
  ++ lit "%s" ++ [34%N] ++ lit "," ++ [34%N] ++ lit "withHighlightedLabel"
  ++ [34%N] ++ lit ":true}".

Definition __get_user_id : M W json :=
  query_id ← getattr "query_id" query_id;
  let url := Percent user_lookup_url (JStr query_id) in
  user ← getattr "user" user;
  let params : gmap pystr pystr :=
    {[ lit "variables" := Py.percent user_lookup_variables user ]} in
  graph_ql_json ←
    try_exceptM
      (s ← getattr "s_twitter" s_twitter;
       headers ← getattr "headers" headers;
       get_json s (Request url params headers))
      (λ e, Some (raise (FailedToGetTweetsException
         (MessageWith (lit "Failed to get the user id, request excepted with: %s") e))));
  lift (user_id_of_response graph_ql_json).

Definition __init__ (user_arg : pystr) : M W () :=
  setattr (set_user user_arg);;
  '(gt_v, bearer_v, query_v) ← __get_twitter_values;
  setattr (set_gt gt_v);;
  setattr (set_bearer_token bearer_v);;
  setattr (set_query_id query_v);;
  s ← extern requests_session;
  setattr (set_s_twitter s);;
  gt_v ← getattr "gt" gt;
  bearer_v ← getattr "bearer_token" bearer_token;
  setattr (set_headers
    (<[ lit "x-guest-token" := gt_v ]>
     (<[ lit "authorization" := Py.percent (lit "Bearer %s") bearer_v ]>
      {[ lit "content-type" := lit "application/json" ]})));;
  uid ← __get_user_id;
  setattr (set_user_id uid).

(** [GetTweetsAPI(user)]: a new object is handed to [__init__]; the
    caller receives it only if [__init__] returns. *)
Definition new (user_arg : pystr) (w : W) : result GetTweetsAPI * W :=
  match __init__ user_arg (blank, w) with
  | (Return _, (self, w')) => (Return self, w')
  | (Raise e, (_, w')) => (Raise e, w')
  end.

Definition timeline_url : pystr :=
  lit "https://api.twitter.com/2/timeline/profile/%s.json".

Definition get_tweets (count : Z) : M W (list pystr) :=
  timeline_json ←
    try_exceptM
      (user_id ← getattr "user_id" user_id;
       let url := Percent timeline_url user_id in
       let params : gmap pystr pystr :=
         {[ lit "tweet_mode" := lit "extended" ]} in
       s ← getattr "s_twitter" s_twitter;
       headers ← getattr "headers" headers;
       get_json s (Request url params headers))
      (λ e, Some (raise (FailedToGetTweetsException
         (MessageWith (lit "Failed to get tweets, request excepted with: %s") e))));
  lift (tweets_of_timeline timeline_json count).

End Methods.

(** ** A scripted world

    A world that answers every call from a fixed script; it serves to run
    the client on concrete responses. *)

Record script : Type := Script {
  guest_answer : provided;
  bearer_answer : provided;
  query_answer : provided;
  lookup_answer : json + pystr;
  timeline_answer : json + pystr
}.

Definition script_get_json (req : request) (w : script) : json + pystr :=
  match req_url req with
  | Percent template _ =>
      if bool_decide (template = user_lookup_url) then lookup_answer w
      else timeline_answer w
  end.

#[global] Instance script_world : World script := {|
  get_guest_token w := (guest_answer w, w);
  get_bearer_token w := (bearer_answer w, w);
  get_query_id w := (query_answer w, w);
  requests_session w := (0%N, w);
  session_get_json _ req w := (script_get_json req w, w)
|}.

(** [{key: value}] *)
Definition obj1 (key : string) (value : json) : json :=
  JDict {[ lit key := value ]}.

(** [{"data": {"user": {"rest_id": "783214"}}}] *)
Definition lookup_ok : json :=
  obj1 "data" (obj1 "user" (obj1 "rest_id" (JStr (lit "783214")))).

(** [{"globalObjects": {"tweets": tweets}}] *)
Definition timeline_of (tweets : json) : json :=
  obj1 "globalObjects" (obj1 "tweets" tweets).

Definition post (text : pystr) : json := obj1 "full_text" (JStr text).

(** The posts of the spec's example: 103 has the text ["a\nb"]. *)
Definition posts_example : gmap pystr json :=
  <[ lit "103" := post (lit "a" ++ [10%N] ++ lit "b") ]>
  (<[ lit "101" := post (lit "first") ]>
   {[ lit "102" := post (lit "second") ]}).

Definition tweets_example : json := JDict posts_example.

(** One post whose key has leading zeros, and one whose key is no number. *)
Definition posts_leading_zero : gmap pystr json :=
  {[ lit "007" := post (lit "x") ]}.

Definition posts_bad_key : gmap pystr json :=
  {[ lit "abc" := post (lit "x") ]}.

(** A world in which the bootstrap succeeds and the timeline request is
    answered with [timeline]. *)
Definition world_with (timeline : json + pystr) : script :=
  Script (Value (lit "gt0")) (Value (lit "AAAA")) (Value (lit "q1"))
    (inl lookup_ok) timeline.

(** A world in which the bearer token cannot be found. *)
Definition world_without_bearer : script :=
  Script (Value (lit "gt0")) (Unavailable (lit "no bearer token in main.js"))
    (Value (lit "q1")) (inl lookup_ok) (inl (timeline_of tweets_example)).

(** A world in which the lookup is answered with [lookup]. *)
Definition world_with_lookup (lookup : json + pystr) : script :=
  Script (Value (lit "gt0")) (Value (lit "AAAA")) (Value (lit "q1"))
    lookup (inl (timeline_of tweets_example)).

(** The instance that construction yields in [world_with _]. *)
Definition client_example : GetTweetsAPI :=
  Instance (Some (lit "jack")) (Some (lit "gt0")) (Some (lit "AAAA"))
    (Some (lit "q1")) (Some 0%N)
    (Some (<[ lit "x-guest-token" := lit "gt0" ]>
           (<[ lit "authorization" := lit "Bearer AAAA" ]>
            {[ lit "content-type" := lit "application/json" ]})))
    (Some (JStr (lit "783214"))).

(** ** Vocabulary of the statements *)

(** The value found in [v] by following [path] through nested objects;
    [None] when the path is absent. *)
Fixpoint lookup_path (path : list pystr) (v : json) : option json :=
  match path with
  | [] => Some v
  | key :: rest =>
      match v with
      | JDict d => d !! key ≫= lookup_path rest
      | _ => None
      end
  end.

Definition rest_id_path : list pystr :=
  [lit "data"; lit "user"; lit "rest_id"].

Definition tweets_path : list pystr := [lit "globalObjects"; lit "tweets"].

Definition no_linebreak (s : pystr) : Prop :=
  Forall (λ c, Py.is_linebreak c = false) s.

Definition has_linebreak (s : pystr) : Prop :=
  Exists (λ c, Py.is_linebreak c = true) s.

(** The text of a post with its lines rejoined by single spaces. *)
Definition normalized (text : pystr) : pystr :=
  Py.join (lit " ") (Py.splitlines text).

(** The [full_text] of the post stored under [str(n)]. *)
Definition full_text_of (tweets : gmap pystr json) (n : Z) : pystr :=
  match tweets !! Py.str n with
  | Some (JDict post) =>
      match post !! lit "full_text" with
      | Some (JStr text) => text
      | _ => []
      end
  | _ => []
  end.

(** A post is an object whose [full_text] is a string. *)
Definition is_post (v : json) : Prop :=
  ∃ fields text, v = JDict fields ∧ fields !! lit "full_text" = Some (JStr text).

(** A key is canonical when it is the decimal rendering [str(n)] of an
    integer of at most 4300 digits: no sign [+], leading zero, white
    space, underscore or digit of another script. *)
Definition canonical_key (k : pystr) : Prop :=
  ∃ n : Z, k = Py.str n ∧ Py.within_limit n = true.

(** A timeline response of the expected shape: the posts are found at
    [globalObjects.tweets], keyed by canonical ids. *)
Definition well_formed_timeline (timeline_json : json)
    (tweets : gmap pystr json) : Prop :=
  lookup_path tweets_path timeline_json = Some (JDict tweets)
  ∧ ∀ k v, tweets !! k = Some v → canonical_key k ∧ is_post v.

(** The request [get_tweets] issues for an instance. *)
Definition timeline_request (uid : json) (hs : gmap pystr pystr) : request :=
  Request (Percent timeline_url uid) {[ lit "tweet_mode" := lit "extended" ]} hs.

(** [self] is fully constructed and its timeline request is answered, in
    world [w], by the parsed body [timeline_json], leaving world [w']. *)
Definition answered `{World W} (self : GetTweetsAPI) (w : W)
    (timeline_json : json) (w' : W) : Prop :=
  ∃ uid s hs,
    user_id self = Some uid ∧ s_twitter self = Some s ∧ headers self = Some hs
    ∧ session_get_json s (timeline_request uid hs) w = (inl timeline_json, w').

(** The first accessor that fails does so with [cause], leaving [w']. *)
Definition accessor_fails `{World W} (w : W) (cause : pystr) (w' : W) : Prop :=
  get_guest_token w = (Unavailable cause, w')
  ∨ (∃ g w1, get_guest_token w = (Value g, w1)
             ∧ get_bearer_token w1 = (Unavailable cause, w'))
  ∨ (∃ g w1 b w2, get_guest_token w = (Value g, w1)
                  ∧ get_bearer_token w1 = (Value b, w2)
                  ∧ get_query_id w2 = (Unavailable cause, w')).

(** All three accessors succeed, in call order. *)
Definition credentials `{World W} (w : W) (g b q : pystr) (w' : W) : Prop :=
  ∃ w1 w2, get_guest_token w = (Value g, w1)
           ∧ get_bearer_token w1 = (Value b, w2)
           ∧ get_query_id w2 = (Value q, w').

(** The headers of the session context for a guest token and a bearer
    token. *)
Definition session_headers (guest_token bearer : pystr) : gmap pystr pystr :=
  <[ lit "x-guest-token" := guest_token ]>
  (<[ lit "authorization" := lit "Bearer " ++ bearer ]>
   {[ lit "content-type" := lit "application/json" ]}).

(** The instance as [__init__] leaves it just before the user id is
    resolved. *)
Definition before_user_id (user_arg g b q : pystr) (s : session) : GetTweetsAPI :=
  Instance (Some user_arg) (Some g) (Some b) (Some q) (Some s)
    (Some (session_headers g b)) None.

(** Some object on the way along [path] lacks the next key: the case in
    which indexing raises [KeyError]. *)
Fixpoint missing_key (path : list pystr) (v : json) : Prop :=
  match path with
  | [] => False
  | key :: rest =>
      match v with
      | JDict d =>
          match d !! key with
          | Some x => missing_key rest x
          | None => True
          end
      | _ => False
      end
  end.

(** The number a run of decimal digits denotes, continuing from [acc]. *)
Definition digit_value (acc : N) (ds : pystr) : N :=
  fold_left (λ a c, a * 10 + (c - 48))%N ds acc.

(** ** Vocabulary of the further properties *)

(** The request [__get_user_id] issues for a query id, a screen name and
    the session headers. *)
Definition lookup_request (q u : pystr) (hs : gmap pystr pystr) : request :=
  Request (Percent user_lookup_url (JStr q))
    {[ lit "variables" := Py.percent user_lookup_variables u ]} hs.

(** The instance a successful construction hands out. *)
Definition constructed (user_arg g b q : pystr) (s : session) (uid : json)
    : GetTweetsAPI :=
  Instance (Some user_arg) (Some g) (Some b) (Some q) (Some s)
    (Some (session_headers g b)) (Some uid).

(** The exceptions that reading a parsed response can raise. *)
Definition lookup_exception (e : exception) : Prop :=
  match e with
  | KeyError _ | TypeError | ValueError | AttributeError _ => True
  | _ => False
  end.

(** The exceptions that can leave [get_tweets]. *)
Definition fetch_exception (e : exception) : Prop :=
  match e with
  | FailedToGetTweetsException _ | TypeError | ValueError
  | AttributeError _ => True
  | _ => False
  end.

(** The exceptions that can leave the constructor. *)
Definition construction_exception (e : exception) : Prop :=
  match e with
  | FailedToGetTweetsException _ | TypeError => True
  | _ => False
  end.

(** An object without [full_text], as a post of the older API has. *)
Definition post_without_full_text : json := obj1 "text" (JStr (lit "x")).

(** Post 101 is not even an object; posts 103 and 102 are fine. *)
Definition posts_old_malformed : gmap pystr json :=
  <[ lit "103" := post (lit "third") ]>
  (<[ lit "101" := JNull ]>
   {[ lit "102" := post (lit "second") ]}).

(** Post 102 lacks [full_text]. *)
Definition posts_one_without_text : gmap pystr json :=
  <[ lit "103" := post (lit "third") ]>
  {[ lit "102" := post_without_full_text ]}.

(** An object that has no [full_text]. *)
Definition textless (v : json) : Prop :=
  ∃ fields, v = JDict fields ∧ fields !! lit "full_text" = None.

(** The handler of the second [try] block of [get_tweets]. *)
Definition except_KeyError (e : exception) : option (result (list pystr)) :=
  match e with
  | KeyError _ =>
      Some (Raise (FailedToGetTweetsException
                     (Message (lit "Failed to get tweets"))))
  | _ => None
  end.

(** * Facts about the Python primitives *)

Section PyFacts.

Lemma space_no_linebreak : no_linebreak (lit " ").
Proof. repeat constructor. Qed.

Lemma splitlines_lines_aux (n : nat) : ∀ s : pystr,
  List.length s ≤ n → Forall no_linebreak (Py.splitlines s).
Proof.
  induction n as [|n IH]; intros [|c s] Hlen; simpl in *; try constructor; try lia.
  assert (Hs : Forall no_linebreak (Py.splitlines s)) by (apply IH; lia).
  destruct (Py.is_linebreak c) eqn:Hc.
  - destruct (c =? 13)%N.
    + destruct s as [|c' s'] ; [by repeat constructor|].
      destruct (c' =? 10)%N; constructor; try done; try constructor.
      apply IH. simpl in Hlen. lia.
    + constructor; [constructor | done].
  - destruct (Py.splitlines s) as [|line lines]; [by repeat constructor|].
    inversion Hs; subst. constructor; [by constructor | done].
Qed.

Lemma splitlines_lines (s : pystr) : Forall no_linebreak (Py.splitlines s).
Proof. by apply (splitlines_lines_aux (List.length s)). Qed.

Lemma join_no_linebreak (sep : pystr) (l : list pystr) :
  no_linebreak sep → Forall no_linebreak l → no_linebreak (Py.join sep l).
Proof.
  intros Hsep. induction 1 as [|x xs Hx Hxs IH]; simpl; [constructor|].
  destruct xs; [done|]. unfold no_linebreak in *.
  rewrite !Forall_app. auto.
Qed.

Lemma normalized_no_linebreak (s : pystr) : no_linebreak (normalized s).
Proof. apply join_no_linebreak; [apply space_no_linebreak | apply splitlines_lines]. Qed.

End PyFacts.

(** ** [int] inverts [str] *)

Section IntStr.

Lemma decimal_of_digit (c : N) :
  Py.is_digit c = true → Py.decimal c = Some (c - 48)%N.
Proof.
  intros Hc. apply andb_true_iff in Hc as [H1%N.leb_le H2%N.leb_le].
  unfold Py.decimal, Py.decimal_zeros. cbn [List.find].
  destruct (N.leb_spec 48 c); [|lia]. destruct (N.ltb_spec c (48 + 10)); [|lia].
  done.
Qed.

Lemma decimal_below_ten (c d : N) : Py.decimal c = Some d → (d < 10)%N.
Proof.
  unfold Py.decimal.
  destruct (List.find _ Py.decimal_zeros) as [zero|] eqn:Hfind; [|done].
  apply List.find_some in Hfind as [_ Hz]. intros [= <-].
  apply andb_true_iff in Hz as [H1%N.leb_le H2%N.ltb_lt]. lia.
Qed.

Lemma parse_digits_all (ds : pystr) : ∀ acc,
  Forall (λ c, Py.is_digit c = true) ds →
  Py.parse_digits acc true ds = Some (digit_value acc ds).
Proof.
  induction ds as [|c ds IH]; intros acc Hds; [done|].
  inversion Hds as [|? ? Hc Hds']; subst. cbn [Py.parse_digits].
  rewrite (decimal_of_digit c Hc). by apply IH.
Qed.

Lemma count_digits_all (ds : pystr) :
  Forall (λ c, Py.is_digit c = true) ds → Py.count_digits ds = List.length ds.
Proof.
  unfold Py.count_digits. induction 1 as [|c ds Hc _ IH]; [done|].
  cbn [List.filter]. unfold Py.is_decimal at 1.
  rewrite (decimal_of_digit c Hc). cbn [List.length]. by rewrite IH.
Qed.

Lemma digit_char_is_digit (d : N) : (d < 10)%N → Py.is_digit (Py.digit_char d) = true.
Proof.
  intros Hd. unfold Py.is_digit, Py.digit_char.
  apply andb_true_iff. split; apply N.leb_le; lia.
Qed.

Lemma digits_app (fuel : nat) : ∀ n acc,
  Py.digits fuel n acc = Py.digits fuel n [] ++ acc.
Proof.
  induction fuel as [|fuel IH]; intros n acc; simpl; [done|].
  destruct (n / 10 =? 0)%N; [done|].
  rewrite (IH _ (_ :: acc)), (IH _ [_]). by rewrite <- app_assoc.
Qed.

Lemma digits_are_digits (fuel : nat) : ∀ n,
  Forall (λ c, Py.is_digit c = true) (Py.digits fuel n []).
Proof.
  assert (Hd : ∀ n, Py.is_digit (Py.digit_char (n mod 10)) = true).
  { intros n. apply digit_char_is_digit. by apply N.mod_lt. }
  induction fuel as [|fuel IH]; intros n; simpl.
  - by repeat constructor.
  - destruct (n / 10 =? 0)%N; [by repeat constructor|].
    rewrite digits_app. apply Forall_app. split; [apply IH | by repeat constructor].
Qed.

Lemma digit_value_app (ds1 ds2 : pystr) (acc : N) :
  digit_value acc (ds1 ++ ds2) = digit_value (digit_value acc ds1) ds2.
Proof. unfold digit_value. by rewrite fold_left_app. Qed.

Lemma digit_value_digits (fuel : nat) : ∀ n,
  (n < 2 ^ N.of_nat (S fuel))%N → digit_value 0 (Py.digits fuel n []) = n.
Proof.
  induction fuel as [|fuel IH]; intros n Hn.
  - change (2 ^ N.of_nat 1)%N with 2%N in Hn. simpl. unfold Py.digit_char.
    rewrite N.mod_small by lia. lia.
  - simpl. pose proof (N.div_mod n 10 ltac:(done)) as Hdm.
    pose proof (N.mod_lt n 10 ltac:(done)) as Hlt.
    destruct (n / 10 =? 0)%N eqn:Hq.
    + apply N.eqb_eq in Hq. rewrite Hq in Hdm. simpl. unfold Py.digit_char.
      set (r := (n `mod` 10)%N) in *. clearbody r. lia.
    + rewrite digits_app, digit_value_app, IH.
      * simpl. unfold Py.digit_char. clear Hn IH Hq.
        set (q := (n `div` 10)%N) in *. set (r := (n `mod` 10)%N) in *.
        clearbody q r. lia.
      * apply N.Div0.div_lt_upper_bound.
        rewrite Nat2N.inj_succ, N.pow_succ_r' in Hn.
        set (b := (2 ^ N.of_nat (S fuel))%N) in *. clearbody b. lia.
Qed.

Lemma log2_bound (n : N) : (n < 2 ^ N.of_nat (S (N.to_nat (N.log2 n))))%N.
Proof.
  rewrite Nat2N.inj_succ, N2Nat.id.
  destruct n as [|p]; [done|]. apply N.log2_spec. lia.
Qed.

Lemma str_N_digits (n : N) : Forall (λ c, Py.is_digit c = true) (Py.str_N n).
Proof. apply digits_are_digits. Qed.

Lemma str_N_value (n : N) : digit_value 0 (Py.str_N n) = n.
Proof. apply digit_value_digits, log2_bound. Qed.

Lemma digit_not_space (c : N) : Py.is_digit c = true → Py.is_space c = false.
Proof.
  intros Hc. apply andb_true_iff in Hc as [H1%N.leb_le H2%N.leb_le].
  apply not_true_is_false. intros Hs.
  apply existsb_exists in Hs as (x & Hx & Heq%N.eqb_eq). subst x.
  unfold Py.spaces in Hx. simpl in Hx.
  repeat (destruct Hx as [Hx|Hx]; [lia|]). done.
Qed.

Lemma lstrip_id (s : pystr) :
  Forall (λ c, Py.is_space c = false) s → Py.lstrip s = s.
Proof. destruct 1 as [|c s Hc _]; [done|]. simpl. by rewrite Hc. Qed.

Lemma strip_id (s : pystr) :
  Forall (λ c, Py.is_space c = false) s → Py.strip s = s.
Proof.
  intros Hs. unfold Py.strip, Py.rstrip. rewrite (lstrip_id s Hs).
  rewrite lstrip_id; [apply rev_involutive | by apply List.Forall_rev].
Qed.

Lemma str_N_not_empty (n : N) : Py.str_N n ≠ [].
Proof.
  unfold Py.str_N. destruct (N.to_nat (N.log2 n)); simpl; [done|].
  destruct (n / 10 =? 0)%N; [done|]. rewrite digits_app.
  by destruct (Py.digits _ _ []).
Qed.

Lemma parse_str_N (n : N) : Py.parse_digits 0 false (Py.str_N n) = Some n.
Proof.
  pose proof (str_N_digits n) as Hd. pose proof (str_N_value n) as Hv.
  pose proof (str_N_not_empty n) as Hne.
  destruct (Py.str_N n) as [|c ds]; [done|].
  inversion Hd as [|? ? Hc Hds]. cbn [Py.parse_digits].
  rewrite (decimal_of_digit c Hc), parse_digits_all by done. by rewrite <- Hv.
Qed.

Lemma limit_check (count : nat) :
  (count <=? Py.max_str_digits)%nat = true →
  (Py.max_str_digits <? count)%nat = false.
Proof. intros Hc. by rewrite Nat.ltb_antisym, Hc. Qed.

(** [int] reads back what [str] wrote, within the conversion limit. *)
Lemma int_str (z : Z) : Py.within_limit z = true → Py.int (Py.str z) = Some z.
Proof.
  assert (Hns : ∀ n, Forall (λ c, Py.is_space c = false) (Py.str_N n)).
  { intros n. eapply Forall_impl; [apply str_N_digits|]. apply digit_not_space. }
  assert (Hpos : ∀ n, (List.length (Py.str_N n) <=? Py.max_str_digits)%nat = true →
                      Py.int (Py.str_N n) = Some (Z.of_N n)).
  { intros n Hlim. unfold Py.int. rewrite strip_id by done.
    pose proof (parse_str_N n) as Hp. pose proof (str_N_digits n) as Hd.
    pose proof (count_digits_all _ Hd) as Hcount.
    destruct (Py.str_N n) as [|c r]; [done|].
    rewrite Hcount, (limit_check _ Hlim).
    inversion Hd as [|? ? Hc _].
    apply andb_true_iff in Hc as [H1%N.leb_le _].
    destruct (N.eqb_spec c 43); [lia|]. destruct (N.eqb_spec c 45); [lia|].
    by rewrite Hp. }
  unfold Py.within_limit, Py.digit_count.
  destruct z as [|p|p]; cbn [Z.abs_N Py.str]; intros Hlim;
    [apply (Hpos 0%N Hlim) | apply (Hpos (Npos p) Hlim) |].
  unfold Py.int. rewrite strip_id by (constructor; [done | apply Hns]).
  change (Py.count_digits (45%N :: Py.str_N (N.pos p)))
    with (Py.count_digits (Py.str_N (N.pos p))).
  rewrite (count_digits_all _ (str_N_digits _)), (limit_check _ Hlim).
  cbn [N.eqb Pos.eqb]. by rewrite parse_str_N.
Qed.

Lemma str_N_inj (m n : N) : Py.str_N m = Py.str_N n → m = n.
Proof. intros Heq. by rewrite <- (str_N_value m), Heq, str_N_value. Qed.

Lemma str_inj (m n : Z) : Py.str m = Py.str n → m = n.
Proof.
  assert (Hminus : ∀ k rest, Py.str_N k ≠ 45%N :: rest).
  { intros k rest Heq. pose proof (str_N_digits k) as Hd. rewrite Heq in Hd.
    by inversion Hd. }
  destruct m as [|p|p], n as [|q|q]; cbn [Py.str]; intros Heq; try done;
    try (by apply Hminus in Heq);
    try (by symmetry in Heq; apply Hminus in Heq);
    try (by apply str_N_inj in Heq);
    try (by apply str_N_inj in Heq as [= ->]).
  injection Heq as Heq. by apply str_N_inj in Heq as [= ->].
Qed.

(** What [int] returns has no more digits than the literal had. *)
Lemma parse_digits_bound (s : pystr) : ∀ acc prev m,
  Py.parse_digits acc prev s = Some m →
  (m < (acc + 1) * 10 ^ N.of_nat (Py.count_digits s))%N.
Proof.
  unfold Py.count_digits.
  induction s as [|c s IH]; intros acc prev m; cbn [Py.parse_digits].
  - destruct prev; [|done]. intros [= <-]. simpl. lia.
  - cbn [List.filter]. unfold Py.is_decimal at 1.
    destruct (Py.decimal c) as [d|] eqn:Hd.
    + intros Hm%IH. apply decimal_below_ten in Hd. cbn [List.length].
      rewrite Nat2N.inj_succ, N.pow_succ_r'.
      set (P := (10 ^ N.of_nat (List.length (List.filter Py.is_decimal s)))%N) in *.
      clearbody P. nia.
    + destruct ((c =? 95)%N && prev); [|done]. apply IH.
Qed.

Lemma digits_length (fuel : nat) : ∀ n d,
  (n < 10 ^ N.of_nat (S d))%N → List.length (Py.digits fuel n []) ≤ S d.
Proof.
  induction fuel as [|fuel IH]; intros n d Hn; simpl; [lia|].
  destruct (n / 10 =? 0)%N eqn:Hq; [simpl; lia|].
  rewrite digits_app, length_app. simpl.
  apply N.eqb_neq in Hq.
  destruct d as [|d].
  { change (10 ^ N.of_nat 1)%N with 10%N in Hn.
    by rewrite N.div_small in Hq. }
  assert (List.length (Py.digits fuel (n / 10) []) ≤ S d); [|lia].
  apply IH. apply N.Div0.div_lt_upper_bound.
  by rewrite (Nat2N.inj_succ (S d)), N.pow_succ_r' in Hn.
Qed.

Lemma int_within_limit (k : pystr) (n : Z) :
  Py.int k = Some n → Py.within_limit n = true.
Proof.
  assert (Hlen : ∀ s m count,
    Py.parse_digits 0 false s = Some m → Py.count_digits s ≤ count →
    count ≤ Py.max_str_digits →
    (List.length (Py.str_N m) <=? Py.max_str_digits)%nat = true).
  { intros s m count Hm Hs Hcount. apply Nat.leb_le.
    apply parse_digits_bound in Hm. rewrite N.add_0_l, N.mul_1_l in Hm.
    destruct (Py.count_digits s) as [|d] eqn:Hd.
    - change (10 ^ N.of_nat 0)%N with 1%N in Hm.
      assert (m = 0%N) as -> by lia. unfold Py.max_str_digits. simpl. lia.
    - pose proof (digits_length (N.to_nat (N.log2 m)) m d Hm) as Hl.
      unfold Py.str_N. lia. }
  unfold Py.int, Py.within_limit, Py.digit_count.
  destruct (Py.strip k) as [|c r]; [done|].
  destruct (Nat.ltb_spec Py.max_str_digits (Py.count_digits (c :: r)))
    as [|Hlim]; [done|].
  assert (Hr : Py.count_digits r ≤ Py.count_digits (c :: r)).
  { unfold Py.count_digits. cbn [List.filter].
    destruct (Py.is_decimal c); simpl; lia. }
  destruct (c =? 43)%N.
  { destruct (Py.parse_digits 0 false r) as [m|] eqn:Hm; [|done].
    intros [= <-]. rewrite Zabs2N.id. by eapply Hlen. }
  destruct (c =? 45)%N.
  { destruct (Py.parse_digits 0 false r) as [m|] eqn:Hm; [|done].
    intros [= <-]. rewrite Zabs2N.inj_opp, Zabs2N.id. by eapply Hlen. }
  destruct (Py.parse_digits 0 false (c :: r)) as [m|] eqn:Hm; [|done].
  intros [= <-]. rewrite Zabs2N.id. by eapply Hlen.
Qed.

End IntStr.

(** * Facts about results, sorting and slicing *)

Section ResultFacts.
Context {A B : Type}.

Lemma bind_Return (a : A) (f : A → result B) : Return a ≫= f = f a.
Proof. done. Qed.

Lemma bind_Raise (e : exception) (f : A → result B) : Raise e ≫= f = Raise e.
Proof. done. Qed.

Lemma mapM_cons (f : A → result B) (x : A) (l : list A) :
  mapM f (x :: l) =
  match f x with
  | Return y =>
      match mapM f l with
      | Return k => Return (y :: k)
      | Raise e => Raise e
      end
  | Raise e => Raise e
  end.
Proof.
  simpl. unfold mbind, result_bind. destruct (f x); [|done].
  by destruct (mapM f l).
Qed.

Lemma mapM_Return (f : A → result B) (g : A → B) (l : list A) :
  (∀ x, x ∈ l → f x = Return (g x)) → mapM f l = Return (g <$> l).
Proof.
  induction l as [|x l IH]; intros Hf; [done|].
  rewrite mapM_cons, Hf by left. rewrite IH; [done|].
  intros y Hy. apply Hf. by right.
Qed.

Lemma mapM_Return_inv (f : A → result B) (l : list A) (r : list B) :
  mapM f l = Return r → Forall2 (λ x y, f x = Return y) l r.
Proof.
  revert r. induction l as [|x l IH]; intros r Hr.
  - injection Hr as <-. constructor.
  - rewrite mapM_cons in Hr. destruct (f x) as [y|] eqn:Hx; [|done].
    destruct (mapM f l) as [k|]; [|done]. injection Hr as <-.
    constructor; [done | by apply IH].
Qed.

End ResultFacts.

Section SortFacts.

#[local] Instance descending_trans : Transitive Py.descending.
Proof. unfold Py.descending. intros x y z. lia. Qed.

#[local] Instance descending_total : Total Py.descending.
Proof. unfold Py.descending. intros x y. lia. Qed.

Lemma sort_reverse_perm (l : list Z) : Py.sort_reverse l ≡ₚ l.
Proof. apply merge_sort_Permutation. Qed.

Lemma descending_strict (l : list Z) :
  StronglySorted Py.descending l → NoDup l → StronglySorted Z.gt l.
Proof.
  induction 1 as [|x l Hl IH Hx]; intros Hnd; constructor;
    apply NoDup_cons in Hnd as [Hnx Hnd]; [by apply IH|].
  rewrite Forall_forall in Hx |- *. intros y Hy.
  specialize (Hx y Hy). unfold Py.descending in Hx.
  assert (y ≠ x) by (intros ->; done). lia.
Qed.

Lemma sort_reverse_strict (l : list Z) :
  NoDup l → StronglySorted Z.gt (Py.sort_reverse l).
Proof.
  intros Hnd. apply descending_strict.
  - apply StronglySorted_merge_sort; apply _.
  - by rewrite sort_reverse_perm.
Qed.

Lemma slice_to_take {X} (l : list X) (count : Z) :
  (0 ≤ count)%Z → Py.slice_to l count = take (Z.to_nat count) l.
Proof. intros Hc. unfold Py.slice_to. by destruct (Z.ltb_spec count 0); [lia|]. Qed.

Lemma slice_to_subset {X} (l : list X) (count : Z) (x : X) :
  x ∈ Py.slice_to l count → x ∈ l.
Proof.
  unfold Py.slice_to. destruct (count <? 0)%Z; intros Hx;
    by eapply elem_of_take in Hx as (? & ?%list_elem_of_lookup_2 & ?).
Qed.

End SortFacts.

(** * Facts about the parsed responses *)

Section JsonFacts.

Lemma lookup_path_cons (k : pystr) (rest : list pystr) (v x : json) :
  lookup_path (k :: rest) v = Some x →
  ∃ y, getitem v k = Return y ∧ lookup_path rest y = Some x.
Proof.
  simpl. destruct v as [| | | | | |d]; try done. unfold getitem.
  destruct (d !! k) as [y|]; [|done]. simpl. eauto.
Qed.

Lemma int_canonical (ks : list pystr) :
  Forall canonical_key ks →
  ∃ ns, mapM int ks = Return ns ∧ ks = Py.str <$> ns.
Proof.
  induction 1 as [|k ks [n [-> Hlim]] _ (ns & Hns & ->)].
  - by exists [].
  - exists (n :: ns). rewrite mapM_cons. unfold int at 1.
    by rewrite (int_str n Hlim), Hns.
Qed.

Lemma tweet_text_post (tweets : gmap pystr json) (n : Z) (v : json) :
  tweets !! Py.str n = Some v → is_post v →
  tweet_text (JDict tweets) n = Return (normalized (full_text_of tweets n)).
Proof.
  intros Hv (fields & text & -> & Htext).
  unfold tweet_text, full_text_of, getitem. rewrite Hv. simpl.
  by rewrite Htext.
Qed.

(** What the second half of [get_tweets] computes on a response of the
    expected shape: the ids, sorted strictly downwards, cut at [count]. *)
Lemma tweets_of_well_formed (timeline_json : json) (tweets : gmap pystr json) :
  well_formed_timeline timeline_json tweets →
  ∃ ids : list Z,
    StronglySorted Z.gt ids
    ∧ (∀ n, n ∈ ids ↔ is_Some (tweets !! Py.str n))
    ∧ List.length ids = size tweets
    ∧ ∀ count, tweets_of_timeline timeline_json count =
        Return ((λ n, normalized (full_text_of tweets n)) <$> Py.slice_to ids count).
Proof.
  intros [Hpath Hposts].
  apply lookup_path_cons in Hpath as (g & Hg & Hpath).
  apply lookup_path_cons in Hpath as (t & Ht & [= ->]).
  set (ks := map fst (map_to_list tweets)).
  assert (Hks : ∀ k, k ∈ ks ↔ is_Some (tweets !! k)).
  { intros k. unfold ks. rewrite list_elem_of_fmap. split.
    - intros ([k' v] & -> & Hkv%elem_of_map_to_list). by exists v.
    - intros [v Hv]. exists (k, v). split; [done|]. by apply elem_of_map_to_list. }
  destruct (int_canonical ks) as (ns & Hns & Hstr).
  { apply Forall_forall. intros k [v Hv]%Hks. by apply (Hposts k v). }
  assert (Hnd : NoDup ns).
  { apply (NoDup_fmap_1 Py.str). rewrite <- Hstr. apply NoDup_fst_map_to_list. }
  assert (Hmem : ∀ n, n ∈ ns ↔ is_Some (tweets !! Py.str n)).
  { intros n. rewrite <- Hks, Hstr, list_elem_of_fmap. split.
    - intros Hn. by exists n.
    - by intros (m & ->%str_inj & Hm). }
  exists (Py.sort_reverse ns). split; [by apply sort_reverse_strict|].
  split; [intros n; by rewrite sort_reverse_perm|].
  split.
  { rewrite sort_reverse_perm. apply (f_equal List.length) in Hstr.
    rewrite length_fmap in Hstr. rewrite <- Hstr. unfold ks.
    rewrite length_map. apply length_map_to_list. }
  intros count. unfold tweets_of_timeline.
  rewrite Hg, bind_Return, Ht, bind_Return.
  change (keys (JDict tweets)) with (Return ks).
  rewrite bind_Return, Hns, bind_Return.
  erewrite mapM_Return; [done|].
  intros n Hn%slice_to_subset. rewrite sort_reverse_perm in Hn.
  apply Hmem in Hn as [v Hv]. apply (tweet_text_post _ _ v Hv).
  by apply (Hposts _ _ Hv).
Qed.

End JsonFacts.

(** * Facts about the methods *)

Section MethodFacts.
Context `{World W}.

Lemma M_bind_run {A B} (m : M W A) (f : A → M W B) (st : GetTweetsAPI * W) :
  (m ≫= f) st =
  match m st with
  | (Return a, st') => f a st'
  | (Raise e, st') => (Raise e, st')
  end.
Proof. done. Qed.

Lemma setattr_run (update : GetTweetsAPI → GetTweetsAPI) (self : GetTweetsAPI) (w : W) :
  setattr update (self, w) = (Return (), (update self, w)).
Proof. done. Qed.

Lemma getattr_run {A} (name : string) (field : GetTweetsAPI → option A)
    (self : GetTweetsAPI) (w : W) (v : A) :
  field self = Some v → getattr name field (self, w) = (Return v, (self, w)).
Proof. intros Hv. unfold getattr. simpl. by rewrite Hv. Qed.

Lemma extern_run {A} (f : W → A * W) (self : GetTweetsAPI) (w w' : W) (a : A) :
  f w = (a, w') → extern f (self, w) = (Return a, (self, w')).
Proof. intros Hf. unfold extern. simpl. by rewrite Hf. Qed.

Lemma accessor_run (f : W → provided * W) (self : GetTweetsAPI) (w : W) :
  accessor f (self, w) =
  match f w with
  | (Value s, w') => (Return s, (self, w'))
  | (Unavailable cause, w') =>
      (Raise (FailedToGetTwitterValueException cause), (self, w'))
  end.
Proof.
  unfold accessor. rewrite M_bind_run. unfold extern. simpl.
  by destruct (f w) as [[s|cause] w'].
Qed.

Lemma get_json_run (s : session) (req : request) (self : GetTweetsAPI) (w : W) :
  get_json s req (self, w) =
  match session_get_json s req w with
  | (inl body, w') => (Return body, (self, w'))
  | (inr text, w') => (Raise (TransportException text), (self, w'))
  end.
Proof.
  unfold get_json. rewrite M_bind_run. unfold extern. simpl.
  by destruct (session_get_json s req w) as [[body|text] w'].
Qed.

(** Neither method body below assigns an attribute. *)
Lemma getattr_frame {A} (name : string) (field : GetTweetsAPI → option A)
    (st : GetTweetsAPI * W) : (getattr name field st).2.1 = st.1.
Proof. unfold getattr. by destruct (field st.1). Qed.

Lemma get_json_frame (s : session) (req : request) (st : GetTweetsAPI * W) :
  (get_json s req st).2.1 = st.1.
Proof.
  destruct st as [self w]. rewrite get_json_run.
  by destruct (session_get_json s req w) as [[body|text] w'].
Qed.

Lemma get_tweets_frame (count : Z) (self : GetTweetsAPI) (w : W) :
  (get_tweets count (self, w)).2.1 = self.
Proof.
  unfold get_tweets. rewrite M_bind_run. unfold try_exceptM.
  rewrite M_bind_run. unfold getattr at 1. simpl.
  destruct (user_id self) as [uid|]; [|done].
  rewrite M_bind_run. unfold getattr at 1. simpl.
  destruct (s_twitter self) as [s|]; [|done].
  rewrite M_bind_run. unfold getattr at 1. simpl.
  destruct (headers self) as [hs|]; [|done].
  rewrite get_json_run.
  by destruct (session_get_json _ _ w) as [[body|text] w'].
Qed.

Lemma get_tweets_answered (count : Z) (self : GetTweetsAPI) (w w' : W)
    (timeline_json : json) :
  answered self w timeline_json w' →
  get_tweets count (self, w) = (tweets_of_timeline timeline_json count, (self, w')).
Proof.
  intros (uid & s & hs & Huid & Hs & Hhs & Hget).
  unfold get_tweets. rewrite M_bind_run. unfold try_exceptM.
  rewrite M_bind_run, (getattr_run _ _ _ _ _ Huid).
  rewrite M_bind_run, (getattr_run _ _ _ _ _ Hs).
  rewrite M_bind_run, (getattr_run _ _ _ _ _ Hhs).
  rewrite get_json_run. fold (timeline_request uid hs). rewrite Hget.
  unfold lift. by destruct (tweets_of_timeline timeline_json count).
Qed.

Lemma get_tweets_Return_inv (count : Z) (self : GetTweetsAPI) (w : W)
    (texts : list pystr) (st' : GetTweetsAPI * W) :
  get_tweets count (self, w) = (Return texts, st') →
  ∃ timeline_json, answered self w timeline_json st'.2
                   ∧ tweets_of_timeline timeline_json count = Return texts.
Proof.
  unfold get_tweets. rewrite M_bind_run. unfold try_exceptM.
  rewrite M_bind_run. unfold getattr at 1. simpl.
  destruct (user_id self) as [uid|] eqn:Huid; [|done].
  rewrite M_bind_run. unfold getattr at 1. simpl.
  destruct (s_twitter self) as [s|] eqn:Hs; [|done].
  rewrite M_bind_run. unfold getattr at 1. simpl.
  destruct (headers self) as [hs|] eqn:Hhs; [|done].
  rewrite get_json_run. fold (timeline_request uid hs).
  destruct (session_get_json _ _ w) as [[body|text] w'] eqn:Hget; [|done].
  unfold lift. intros [= Hr <-]. exists body. split; [|done].
  by exists uid, s, hs.
Qed.

End MethodFacts.

(** * Facts about construction *)

Section InitFacts.
Context `{World W}.

Lemma percent_bearer (bearer : pystr) :
  Py.percent (lit "Bearer %s") bearer = lit "Bearer " ++ bearer.
Proof. change (lit "Bearer " ++ bearer ++ [] = lit "Bearer " ++ bearer). by rewrite app_nil_r. Qed.

Lemma get_twitter_values_fails (self : GetTweetsAPI) (w w' : W) (cause : pystr) :
  accessor_fails w cause w' →
  __get_twitter_values (self, w) =
  (Raise (FailedToGetTweetsException
            (Caught (FailedToGetTwitterValueException cause))), (self, w')).
Proof.
  unfold __get_twitter_values, try_exceptM.
  intros [Hg | [(g & w1 & Hg & Hb) | (g & w1 & b & w2 & Hg & Hb & Hq)]];
    rewrite M_bind_run, accessor_run, Hg; [done|..];
    rewrite M_bind_run, accessor_run, Hb; [done|];
    by rewrite M_bind_run, accessor_run, Hq.
Qed.

Lemma get_twitter_values_ok (self : GetTweetsAPI) (w w' : W) (g b q : pystr) :
  credentials w g b q w' →
  __get_twitter_values (self, w) = (Return (g, b, q), (self, w')).
Proof.
  intros (w1 & w2 & Hg & Hb & Hq). unfold __get_twitter_values, try_exceptM.
  rewrite M_bind_run, accessor_run, Hg.
  rewrite M_bind_run, accessor_run, Hb.
  by rewrite M_bind_run, accessor_run, Hq.
Qed.

Lemma get_user_id_frame (st : GetTweetsAPI * W) : (__get_user_id st).2.1 = st.1.
Proof.
  destruct st as [self w]. unfold __get_user_id.
  rewrite M_bind_run. unfold getattr at 1. simpl.
  destruct (query_id self) as [q|]; [|done].
  rewrite M_bind_run. unfold getattr at 1. simpl.
  destruct (user self) as [u|]; [|done].
  rewrite M_bind_run. unfold try_exceptM.
  rewrite M_bind_run. unfold getattr at 1. simpl.
  destruct (s_twitter self) as [s|]; [|done].
  rewrite M_bind_run. unfold getattr at 1. simpl.
  destruct (headers self) as [hs|]; [|done].
  rewrite get_json_run.
  by destruct (session_get_json _ _ w) as [[body|text] w'].
Qed.

Lemma init_run (user_arg g b q : pystr) (w w1 : W) :
  credentials w g b q w1 →
  __init__ user_arg (blank, w) =
  match __get_user_id (before_user_id user_arg g b q (requests_session w1).1,
                       (requests_session w1).2) with
  | (Return uid, (self', w')) => (Return (), (set_user_id uid self', w'))
  | (Raise e, st') => (Raise e, st')
  end.
Proof.
  intros Hc. unfold __init__.
  rewrite M_bind_run, setattr_run.
  rewrite M_bind_run, (get_twitter_values_ok _ _ _ _ _ _ Hc).
  rewrite M_bind_run, setattr_run.
  rewrite M_bind_run, setattr_run.
  rewrite M_bind_run, setattr_run.
  rewrite M_bind_run.
  destruct (requests_session w1) as [s w2] eqn:Hs.
  rewrite (extern_run _ _ _ _ _ Hs).
  rewrite M_bind_run, setattr_run.
  rewrite M_bind_run. erewrite getattr_run by reflexivity.
  rewrite M_bind_run. erewrite getattr_run by reflexivity.
  rewrite M_bind_run, setattr_run.
  rewrite M_bind_run. rewrite percent_bearer.
  change (set_headers _ _) with (before_user_id user_arg g b q s).
  simpl fst. simpl snd.
  destruct (__get_user_id _) as [[uid|e] [self' w']]; [|done].
  by rewrite setattr_run.
Qed.

Lemma init_fails (user_arg cause : pystr) (w w' : W) :
  accessor_fails w cause w' →
  __init__ user_arg (blank, w) =
  (Raise (FailedToGetTweetsException
            (Caught (FailedToGetTwitterValueException cause))),
   (set_user user_arg blank, w')).
Proof.
  intros Hf. unfold __init__.
  rewrite M_bind_run, setattr_run.
  by rewrite M_bind_run, (get_twitter_values_fails _ _ _ _ Hf).
Qed.

End InitFacts.

(** * The second halves of the two requests, case by case *)

Section Shapes.

Lemma try_except_Return_inv {A} (body : result A)
    (handler : exception → option (result A)) (a : A) :
  (∀ e h, handler e = Some h → ∃ e', h = Raise e') →
  try_except body handler = Return a → body = Return a.
Proof.
  intros Hh. unfold try_except. destruct body as [b|e]; [done|].
  destruct (handler e) as [h|] eqn:He; [|done].
  destruct (Hh e h He) as [e' ->]. done.
Qed.

Lemma getitem_Return_inv (v x : json) (key : pystr) :
  getitem v key = Return x → ∃ d, v = JDict d ∧ d !! key = Some x.
Proof.
  unfold getitem. destruct v as [| | | | | |d]; try done.
  destruct (d !! key) as [y|] eqn:Hy; [|done]. intros [= ->]. eauto.
Qed.

Lemma user_id_present (graph_ql_json v : json) :
  lookup_path rest_id_path graph_ql_json = Some v →
  user_id_of_response graph_ql_json = Return v.
Proof.
  intros Hp. apply lookup_path_cons in Hp as (data & Hdata & Hp).
  apply lookup_path_cons in Hp as (user & Huser & Hp).
  apply lookup_path_cons in Hp as (x & Hx & [= ->]).
  unfold user_id_of_response.
  by rewrite Hdata, bind_Return, Huser, bind_Return, Hx.
Qed.

Lemma getitem_dict (d : gmap pystr json) (key : pystr) :
  getitem (JDict d) key =
  match d !! key with
  | Some x => Return x
  | None => Raise (KeyError key)
  end.
Proof. done. Qed.

Lemma user_id_missing_key (graph_ql_json : json) :
  missing_key rest_id_path graph_ql_json →
  user_id_of_response graph_ql_json =
  Raise (FailedToGetTweetsException (Message
    (lit "Failed to get the user id, could not find user rest_id in GraphQL response"))).
Proof.
  unfold user_id_of_response, rest_id_path. cbn [missing_key].
  destruct graph_ql_json as [| | | | | |d]; try done. rewrite getitem_dict.
  destruct (d !! lit "data") as [data|]; [|done]. rewrite bind_Return.
  destruct data as [| | | | | |d1]; try done. rewrite getitem_dict.
  destruct (d1 !! lit "user") as [user|]; [|done]. rewrite bind_Return.
  destruct user as [| | | | | |d2]; try done. rewrite getitem_dict.
  by destruct (d2 !! lit "rest_id").
Qed.

Lemma tweets_missing_key (timeline_json : json) (count : Z) :
  missing_key tweets_path timeline_json →
  tweets_of_timeline timeline_json count =
  Raise (FailedToGetTweetsException (Message (lit "Failed to get tweets"))).
Proof.
  unfold tweets_of_timeline, tweets_path. cbn [missing_key].
  destruct timeline_json as [| | | | | |d]; try done. rewrite getitem_dict.
  destruct (d !! lit "globalObjects") as [g|]; [|done]. rewrite bind_Return.
  destruct g as [| | | | | |d1]; try done. rewrite getitem_dict.
  by destruct (d1 !! lit "tweets").
Qed.

(** A fetch that returns has found the posts, parsed every key, and read
    each text under the rendering of a parsed id. *)
Lemma tweets_of_timeline_Return_inv (timeline_json : json) (count : Z)
    (texts : list pystr) :
  tweets_of_timeline timeline_json count = Return texts →
  ∃ (tweets : gmap pystr json) (ns : list Z),
    lookup_path tweets_path timeline_json = Some (JDict tweets)
    ∧ mapM int (map fst (map_to_list tweets)) = Return ns
    ∧ mapM (tweet_text (JDict tweets))
        (Py.slice_to (Py.sort_reverse ns) count) = Return texts.
Proof.
  intros Hr. apply try_except_Return_inv in Hr.
  2:{ intros e h. destruct e; try done. intros [= <-]. eauto. }
  destruct (getitem timeline_json (lit "globalObjects")) as [g|] eqn:Hg; [|done].
  rewrite bind_Return in Hr.
  destruct (getitem g (lit "tweets")) as [t|] eqn:Ht; [|done].
  rewrite bind_Return in Hr.
  apply getitem_Return_inv in Hg as (d & -> & Hg).
  apply getitem_Return_inv in Ht as (d1 & -> & Ht).
  destruct t as [| | | | | |tweets]; try done.
  change (keys (JDict tweets)) with (Return (map fst (map_to_list tweets))) in Hr.
  rewrite bind_Return in Hr.
  destruct (mapM int _) as [ns|] eqn:Hns; [|done]. rewrite bind_Return in Hr.
  exists tweets, ns. split; [|done].
  unfold tweets_path. cbn [lookup_path]. rewrite Hg. cbn [mbind option_bind lookup_path].
  by rewrite Ht.
Qed.

Lemma strictly_sorted_NoDup (l : list Z) : StronglySorted Z.gt l → NoDup l.
Proof.
  induction 1 as [|x l Hl IH Hx]; constructor; [|done].
  intros Hin. rewrite Forall_forall in Hx. specialize (Hx x Hin). lia.
Qed.

End Shapes.

(** * The example data *)

Section Examples.

Lemma posts_example_well_formed :
  well_formed_timeline (timeline_of tweets_example) posts_example.
Proof.
  split; [by vm_compute|]. intros k v Hkv. unfold posts_example in Hkv.
  apply lookup_insert_Some in Hkv as [[<- <-] | [_ Hkv]].
  { split; [by exists 103%Z | by eexists _, _]. }
  apply lookup_insert_Some in Hkv as [[<- <-] | [_ Hkv]].
  { split; [by exists 101%Z | by eexists _, _]. }
  apply lookup_singleton_Some in Hkv as [<- <-].
  split; [by exists 102%Z | by eexists _, _].
Qed.

Lemma client_example_answered (timeline_json : json) :
  answered client_example (world_with (inl timeline_json)) timeline_json
    (world_with (inl timeline_json)).
Proof. do 3 eexists. by repeat split. Qed.

End Examples.

(** * The properties of the client *)

Section Claims.
Context `{World W}.

(** C1 (as amended).  When the timeline request is answered by a response
    whose [globalObjects.tweets] object maps canonical decimal ids (of at
    most 4300 digits) to posts with a string [full_text], [get_tweets
    count] with a positive
    [count] returns the texts of the posts in strictly descending id
    order, each with its lines rejoined by single spaces, cut to the
    first [count] entries. *)
Theorem get_tweets_descending_texts (self : GetTweetsAPI) (w w' : W)
    (timeline_json : json) (tweets : gmap pystr json) (count : Z) :
  answered self w timeline_json w' →
  well_formed_timeline timeline_json tweets →
  (0 < count)%Z →
  ∃ ids : list Z,
    StronglySorted Z.gt ids
    ∧ (∀ n, n ∈ ids ↔ is_Some (tweets !! Py.str n))
    ∧ get_tweets count (self, w) =
        (Return ((λ n, normalized (full_text_of tweets n))
                   <$> take (Z.to_nat count) ids), (self, w')).
Proof.
  intros Hans Hwf Hcount.
  destruct (tweets_of_well_formed _ _ Hwf) as (ids & Hsorted & Hmem & _ & Hrun).
  exists ids. split; [done|]. split; [done|].
  rewrite (get_tweets_answered _ _ _ _ _ Hans), Hrun.
  by rewrite slice_to_take by lia.
Qed.

(** C2.  When one of the three token accessors fails, [__init__] raises
    [FailedToGetTweetsException] wrapping the provider's exception, the
    constructor hands no object to the caller, and the object [__init__]
    was working on has neither [headers] nor [user_id]. *)
Theorem construction_fails_without_tokens (user_arg cause : pystr) (w w' : W) :
  accessor_fails w cause w' →
  new user_arg w =
    (Raise (FailedToGetTweetsException
              (Caught (FailedToGetTwitterValueException cause))), w')
  ∧ ∃ self',
      __init__ user_arg (blank, w) =
        (Raise (FailedToGetTweetsException
                  (Caught (FailedToGetTwitterValueException cause))),
         (self', w'))
      ∧ headers self' = None ∧ user_id self' = None.
Proof.
  intros Hf. pose proof (init_fails user_arg cause w w' Hf) as Hinit.
  split.
  - unfold new. by rewrite Hinit.
  - by exists (set_user user_arg blank).
Qed.

(** C5.  On a well-formed timeline response and for [count >= 0],
    [get_tweets count] returns a list whose length is the minimum of
    [count] and the number of posts; when [count] is at least the number
    of posts, the list holds the text of every post exactly once. *)
Theorem get_tweets_length (self : GetTweetsAPI) (w w' : W)
    (timeline_json : json) (tweets : gmap pystr json) (count : Z) :
  answered self w timeline_json w' →
  well_formed_timeline timeline_json tweets →
  (0 ≤ count)%Z →
  ∃ texts : list pystr,
    get_tweets count (self, w) = (Return texts, (self, w'))
    ∧ Z.of_nat (List.length texts) = Z.min count (Z.of_nat (size tweets))
    ∧ ((Z.of_nat (size tweets) ≤ count)%Z →
       ∃ ids : list Z,
         NoDup ids
         ∧ (∀ n, n ∈ ids ↔ is_Some (tweets !! Py.str n))
         ∧ texts = (λ n, normalized (full_text_of tweets n)) <$> ids).
Proof.
  intros Hans Hwf Hcount.
  destruct (tweets_of_well_formed _ _ Hwf) as (ids & Hsorted & Hmem & Hlen & Hrun).
  eexists. rewrite (get_tweets_answered _ _ _ _ _ Hans), Hrun.
  split; [done|]. rewrite slice_to_take by done.
  rewrite length_fmap, length_take, Hlen. split; [lia|].
  intros Hall. exists ids. split; [by apply strictly_sorted_NoDup|].
  split; [done|]. rewrite take_ge; [done | lia].
Qed.

(** C7.  When [get_tweets] returns, every key of the tweets object parsed
    as an integer, and every returned text is the text of a post stored
    under the rendering [str(n)] of an id [n] that was parsed from a key;
    that rendering parses again. *)
Theorem get_tweets_only_parsed_ids (self : GetTweetsAPI) (w : W) (count : Z)
    (texts : list pystr) (st' : GetTweetsAPI * W) :
  get_tweets count (self, w) = (Return texts, st') →
  ∃ (timeline_json : json) (tweets : gmap pystr json),
    answered self w timeline_json st'.2
    ∧ lookup_path tweets_path timeline_json = Some (JDict tweets)
    ∧ (∀ k, is_Some (tweets !! k) → is_Some (Py.int k))
    ∧ Forall (λ text, ∃ (n : Z) (k : pystr),
                is_Some (tweets !! k) ∧ Py.int k = Some n
                ∧ is_Some (tweets !! Py.str n)
                ∧ Py.int (Py.str n) = Some n
                ∧ tweet_text (JDict tweets) n = Return text) texts.
Proof.
  intros Hget. apply get_tweets_Return_inv in Hget as (j & Hans & Hrun).
  apply tweets_of_timeline_Return_inv in Hrun as (tweets & ns & Hpath & Hns & Htexts).
  exists j, tweets. split; [done|]. split; [done|].
  apply mapM_Return_inv in Hns. apply mapM_Return_inv in Htexts.
  assert (Hparsed : ∀ k n, int k = Return n → Py.int k = Some n).
  { intros k n. unfold int. destruct (Py.int k); [|done]. by intros [= ->]. }
  split.
  - intros k [v Hv].
    assert (Hk : k ∈ map fst (map_to_list tweets)).
    { apply list_elem_of_fmap. exists (k, v). split; [done|].
      by apply elem_of_map_to_list. }
    apply list_elem_of_lookup_1 in Hk as [i Hi].
    destruct (Forall2_lookup_l _ _ _ i k Hns Hi) as (n & _ & Hn).
    exists n. by apply Hparsed.
  - apply Forall_forall. intros text Htext.
    apply list_elem_of_lookup_1 in Htext as [i Hi].
    destruct (Forall2_lookup_r _ _ _ i text Htexts Hi) as (n & Hn & Hrun).
    apply list_elem_of_lookup_2, slice_to_subset in Hn.
    rewrite sort_reverse_perm in Hn.
    apply list_elem_of_lookup_1 in Hn as [j' Hj].
    destruct (Forall2_lookup_r _ _ _ j' n Hns Hj) as (k & Hk & Hkn).
    exists n, k. split.
    { apply list_elem_of_lookup_2, list_elem_of_fmap in Hk as ([k' v] & -> & Hkv).
      apply elem_of_map_to_list in Hkv. by exists v. }
    split; [by apply Hparsed|].
    split; [|split; [apply int_str, (int_within_limit k); by apply Hparsed | done]].
    unfold tweet_text in Hrun. rewrite getitem_dict in Hrun.
    by destruct (tweets !! Py.str n).
Qed.

(** C8.  For a post whose [full_text] contains a line break, the text
    [get_tweets] emits for it - the lines of [full_text] rejoined by
    single spaces - contains no line-break character. *)
Theorem normalized_text_one_line (tweets fields : gmap pystr json) (n : Z)
    (text : pystr) :
  tweets !! Py.str n = Some (JDict fields) →
  fields !! lit "full_text" = Some (JStr text) →
  has_linebreak text →
  ∃ line, tweet_text (JDict tweets) n = Return line
          ∧ line = Py.join (lit " ") (Py.splitlines text)
          ∧ no_linebreak line.
Proof.
  intros Hpost Htext _. exists (normalized text). split.
  - unfold tweet_text. rewrite getitem_dict, Hpost, bind_Return.
    by rewrite getitem_dict, Htext.
  - split; [done | apply normalized_no_linebreak].
Qed.

(** C9.  When the three accessors return [g], [b] and [q], the headers
    [__init__] assembles are: x-guest-token = [g], authorization =
    "Bearer " followed by [b], content-type = application/json; an
    instance handed to the caller carries exactly these. *)
Theorem session_headers_from_credentials (user_arg g b q : pystr) (w w1 : W) :
  credentials w g b q w1 →
  (∀ r st', __init__ user_arg (blank, w) = (r, st') →
            headers st'.1 = Some (session_headers g b))
  ∧ (∀ self w', new user_arg w = (Return self, w') →
                headers self = Some (session_headers g b))
  ∧ session_headers g b !! lit "x-guest-token" = Some g
  ∧ session_headers g b !! lit "authorization" = Some (lit "Bearer " ++ b)
  ∧ session_headers g b !! lit "content-type" = Some (lit "application/json")
  ∧ size (session_headers g b) = 3.
Proof.
  intros Hc.
  assert (Hinit : ∀ r st', __init__ user_arg (blank, w) = (r, st') →
                           headers st'.1 = Some (session_headers g b)).
  { intros r st'. rewrite (init_run _ _ _ _ _ _ Hc).
    pose proof (get_user_id_frame
      (before_user_id user_arg g b q (requests_session w1).1,
       (requests_session w1).2)) as Hframe.
    destruct (__get_user_id _) as [[uid|e] [self' w']]; simpl in Hframe;
      subst self'; by intros [= <- <-]. }
  split; [done|]. split.
  { intros self w'. unfold new.
    destruct (__init__ user_arg (blank, w)) as [[[]|e] [self' w'']] eqn:Hrun;
      [|done]. intros [= <- <-]. apply (Hinit (Return ()) (self', w'') eq_refl). }
  unfold session_headers. by repeat split.
Qed.

(** C10.  [get_tweets] leaves the instance as it found it, whether it
    returns or raises: all of [user], [gt], [bearer_token], [query_id],
    [headers] and [user_id] keep their values, so a second fetch works
    from the same session context and user id. *)
Theorem get_tweets_keeps_instance (count count' : Z) (self : GetTweetsAPI) (w : W) :
  let after := (get_tweets count (self, w)).2 in
  after.1 = self
  ∧ user after.1 = user self ∧ gt after.1 = gt self
  ∧ bearer_token after.1 = bearer_token self
  ∧ query_id after.1 = query_id self
  ∧ headers after.1 = headers self ∧ user_id after.1 = user_id self
  ∧ (get_tweets count' after).2.1 = self.
Proof.
  simpl. pose proof (get_tweets_frame count self w) as Hframe.
  destruct (get_tweets count (self, w)) as [r [self' w']]. simpl in *.
  subst self'. repeat split. apply get_tweets_frame.
Qed.

End Claims.

(** * The primitives on literals *)

Section Literals.

Example splitlines_ex1 :
  Py.splitlines (lit "a" ++ [10; 13; 10; 13]%N ++ lit "b" ++ [10]%N) = [lit "a"; []; []; lit "b"].
Proof. reflexivity. Qed.

Example int_ex1 : Py.int (lit " +1_000 ") = Some 1000%Z.
Proof. reflexivity. Qed.

Example int_ex2 : Py.int (lit "007") = Some 7%Z.
Proof. reflexivity. Qed.

Example int_ex3 : Py.int (lit "1__0") = None.
Proof. reflexivity. Qed.

(** Arabic-Indic digits are digits; U+001F is not skipped; 4301 digits
    are one too many, 4300 are not. *)
Example int_ex4 : Py.int [1633; 1634; 1635]%N = Some 123%Z.
Proof. reflexivity. Qed.

Example int_ex5 : Py.int (31%N :: lit "7") = None.
Proof. reflexivity. Qed.

Example int_ex6 : Py.int (List.repeat 57%N 4301) = None.
Proof. by vm_compute. Qed.

Example int_ex7 :
  Py.int (45%N :: List.repeat 57%N 4300) = Some (- (10 ^ 4300 - 1))%Z.
Proof. by vm_compute. Qed.

Example str_ex1 : Py.str (-1305)%Z = lit "-1305".
Proof. reflexivity. Qed.

Example str_ex2 : Py.str 1234567890123456789%Z = lit "1234567890123456789".
Proof. vm_compute. reflexivity. Qed.

Example sort_ex1 : Py.sort_reverse [101; 103; 102]%Z = [103; 102; 101]%Z.
Proof. reflexivity. Qed.

Example slice_ex1 : Py.slice_to [1; 2; 3] (-1) = [1; 2].
Proof. reflexivity. Qed.

End Literals.

(** * The client run on concrete responses *)

Section Runs.

(** The example of the specification: posts 103, 101 and 102 with
    [count = 2] give the text of 103 on one line, then the text of 102. *)
Example get_tweets_spec_example :
  (get_tweets 2 (client_example, world_with (inl (timeline_of tweets_example)))).1
  = Return [lit "a b"; lit "second"].
Proof. by vm_compute. Qed.

Example construction_example (timeline : json + pystr) :
  new (lit "jack") (world_with timeline) = (Return client_example, world_with timeline).
Proof. by vm_compute. Qed.

(** Witness of C1: the posts of the specification's example, [count = 2]. *)
Lemma get_tweets_descending_texts_witness :
  let w := world_with (inl (timeline_of tweets_example)) in
  well_formed_timeline (timeline_of tweets_example) posts_example
  ∧ (0 < 2)%Z
  ∧ ∃ ids : list Z,
      StronglySorted Z.gt ids
      ∧ (∀ n, n ∈ ids ↔ is_Some (posts_example !! Py.str n))
      ∧ get_tweets 2 (client_example, w) =
          (Return ((λ n, normalized (full_text_of posts_example n))
                     <$> take (Z.to_nat 2) ids), (client_example, w)).
Proof.
  intros w. split; [apply posts_example_well_formed|]. split; [lia|].
  apply (get_tweets_descending_texts client_example w w
           (timeline_of tweets_example) posts_example 2).
  - apply client_example_answered.
  - apply posts_example_well_formed.
  - lia.
Defined.

(** Counterexample to C1 as stated: the key ["007"] consists of digits and
    parses as 7, its value has a [full_text], the count is positive; the
    text is then looked up under ["7"], which is no key, and [get_tweets]
    raises instead of returning the text. *)
Lemma get_tweets_leading_zero_key :
  let timeline_json := timeline_of (JDict posts_leading_zero) in
  let w := world_with (inl timeline_json) in
  answered client_example w timeline_json w
  ∧ lookup_path tweets_path timeline_json = Some (JDict posts_leading_zero)
  ∧ (∀ k v, posts_leading_zero !! k = Some v →
            Forall (λ c, Py.is_digit c = true) k ∧ Py.int k = Some 7%Z
            ∧ is_post v)
  ∧ get_tweets 1 (client_example, w) =
      (Raise (FailedToGetTweetsException (Message (lit "Failed to get tweets"))),
       (client_example, w)).
Proof.
  intros timeline_json w. split; [apply client_example_answered|].
  split; [by vm_compute|]. split; [|by vm_compute].
  intros k v Hkv. unfold posts_leading_zero in Hkv.
  apply lookup_singleton_Some in Hkv as [<- <-].
  split; [by repeat constructor|]. split; [done | by eexists _, _].
Qed.

(** Witness of C2: the bearer token cannot be found. *)
Lemma construction_fails_without_tokens_witness :
  let cause := lit "no bearer token in main.js" in
  let failure := FailedToGetTweetsException
                   (Caught (FailedToGetTwitterValueException cause)) in
  accessor_fails world_without_bearer cause world_without_bearer
  ∧ new (lit "jack") world_without_bearer = (Raise failure, world_without_bearer)
  ∧ ∃ self',
      __init__ (lit "jack") (blank, world_without_bearer) =
        (Raise failure, (self', world_without_bearer))
      ∧ headers self' = None ∧ user_id self' = None.
Proof.
  intros cause failure.
  assert (Hf : accessor_fails world_without_bearer cause world_without_bearer).
  { right. left. by exists (lit "gt0"), world_without_bearer. }
  split; [exact Hf|].
  exact (construction_fails_without_tokens (lit "jack") cause
           world_without_bearer world_without_bearer Hf).
Defined.

(** C3, at the response [{"data": {"user": null}}]: the path
    [data.user.rest_id] is absent, and resolution - hence construction -
    raises a bare [TypeError], which [except KeyError] does not catch. *)
Theorem user_id_null_user_raises_TypeError :
  let response := obj1 "data" (obj1 "user" JNull) in
  let w := world_with_lookup (inl response) in
  lookup_path rest_id_path response = None
  ∧ user_id_of_response response = Raise TypeError
  ∧ new (lit "jack") w = (Raise TypeError, w).
Proof. by vm_compute. Qed.

(** C4, at the response [{"globalObjects": null}]: the path
    [globalObjects.tweets] is absent, and [get_tweets] raises a bare
    [TypeError], which [except KeyError] does not catch. *)
Theorem get_tweets_null_globalObjects_raises_TypeError :
  let timeline_json := obj1 "globalObjects" JNull in
  let w := world_with (inl timeline_json) in
  answered client_example w timeline_json w
  ∧ lookup_path tweets_path timeline_json = None
  ∧ get_tweets 10 (client_example, w) = (Raise TypeError, (client_example, w)).
Proof.
  intros timeline_json w. split; [apply client_example_answered|].
  by vm_compute.
Qed.

(** Witness of C5: three posts and [count = 5]. *)
Lemma get_tweets_length_witness :
  let w := world_with (inl (timeline_of tweets_example)) in
  (0 ≤ 5)%Z
  ∧ ∃ texts : list pystr,
      get_tweets 5 (client_example, w) = (Return texts, (client_example, w))
      ∧ Z.of_nat (List.length texts) = Z.min 5 (Z.of_nat (size posts_example))
      ∧ ((Z.of_nat (size posts_example) ≤ 5)%Z →
         ∃ ids : list Z,
           NoDup ids
           ∧ (∀ n, n ∈ ids ↔ is_Some (posts_example !! Py.str n))
           ∧ texts = (λ n, normalized (full_text_of posts_example n)) <$> ids).
Proof.
  intros w. split; [lia|].
  apply (get_tweets_length client_example w w
           (timeline_of tweets_example) posts_example 5).
  - apply client_example_answered.
  - apply posts_example_well_formed.
  - lia.
Defined.

(** C6, at a tweets object with the key ["abc"]: [int] raises
    [ValueError], which [except KeyError] does not catch; [get_tweets]
    lets it through unwrapped. *)
Theorem get_tweets_bad_key_raises_ValueError :
  let timeline_json := timeline_of (JDict posts_bad_key) in
  let w := world_with (inl timeline_json) in
  answered client_example w timeline_json w
  ∧ Py.int (lit "abc") = None
  ∧ get_tweets 10 (client_example, w) = (Raise ValueError, (client_example, w)).
Proof.
  intros timeline_json w. split; [apply client_example_answered|].
  by vm_compute.
Qed.

(** Witness of C7: the fetch of the specification's example. *)
Lemma get_tweets_only_parsed_ids_witness :
  let w := world_with (inl (timeline_of tweets_example)) in
  ∃ (timeline_json : json) (tweets : gmap pystr json),
    answered client_example w timeline_json w
    ∧ lookup_path tweets_path timeline_json = Some (JDict tweets)
    ∧ (∀ k, is_Some (tweets !! k) → is_Some (Py.int k))
    ∧ Forall (λ text, ∃ (n : Z) (k : pystr),
                is_Some (tweets !! k) ∧ Py.int k = Some n
                ∧ is_Some (tweets !! Py.str n)
                ∧ Py.int (Py.str n) = Some n
                ∧ tweet_text (JDict tweets) n = Return text)
        [lit "a b"; lit "second"].
Proof.
  intros w.
  apply (get_tweets_only_parsed_ids client_example w 2
           [lit "a b"; lit "second"] (client_example, w)).
  by vm_compute.
Defined.

(** Witness of C8: post 103 of the example, whose text is ["a\nb"]. *)
Lemma normalized_text_one_line_witness :
  has_linebreak (lit "a" ++ [10%N] ++ lit "b")
  ∧ ∃ line, tweet_text tweets_example 103 = Return line
            ∧ line = Py.join (lit " ") (Py.splitlines (lit "a" ++ [10%N] ++ lit "b"))
            ∧ no_linebreak line.
Proof.
  assert (Hb : has_linebreak (lit "a" ++ [10%N] ++ lit "b")).
  { apply Exists_cons_tl, Exists_cons_hd. reflexivity. }
  split; [exact Hb|].
  apply (normalized_text_one_line posts_example
           {[ lit "full_text" := JStr (lit "a" ++ [10%N] ++ lit "b") ]} 103
           (lit "a" ++ [10%N] ++ lit "b")); [by vm_compute | by vm_compute | exact Hb].
Defined.

(** Witness of C9: the credentials of [world_with _]. *)
Lemma session_headers_from_credentials_witness :
  let w := world_with (inl (timeline_of tweets_example)) in
  let hs := session_headers (lit "gt0") (lit "AAAA") in
  credentials w (lit "gt0") (lit "AAAA") (lit "q1") w
  ∧ (∀ r st', __init__ (lit "jack") (blank, w) = (r, st') → headers st'.1 = Some hs)
  ∧ (∀ self w', new (lit "jack") w = (Return self, w') → headers self = Some hs)
  ∧ hs !! lit "x-guest-token" = Some (lit "gt0")
  ∧ hs !! lit "authorization" = Some (lit "Bearer " ++ lit "AAAA")
  ∧ hs !! lit "content-type" = Some (lit "application/json")
  ∧ size hs = 3.
Proof.
  intros w hs.
  assert (Hc : credentials w (lit "gt0") (lit "AAAA") (lit "q1") w).
  { by exists w, w. }
  split; [exact Hc|].
  exact (session_headers_from_credentials (lit "jack") (lit "gt0") (lit "AAAA")
           (lit "q1") w w Hc).
Defined.

End Runs.

(** * Further properties: how the methods run *)

Section Runs2.
Context `{World W}.

(** Exactly one of the two holds of the accessors in a world. *)
Lemma accessors_outcome (w : W) :
  (∃ cause w', accessor_fails w cause w')
  ∨ (∃ g b q w', credentials w g b q w').
Proof.
  unfold accessor_fails, credentials.
  destruct (get_guest_token w) as [[g|c] w1] eqn:Hg; [|left; by eauto].
  destruct (get_bearer_token w1) as [[b|c] w2] eqn:Hb.
  2:{ left. exists c, w2. right. left. by eauto. }
  destruct (get_query_id w2) as [[q|c] w3] eqn:Hq.
  - right. exists g, b, q, w3. by eauto.
  - left. exists c, w3. right. right. exists g, w1, b, w2. by eauto.
Qed.

Lemma get_user_id_run (self : GetTweetsAPI) (w : W) (q u : pystr)
    (s : session) (hs : gmap pystr pystr) :
  query_id self = Some q → user self = Some u →
  s_twitter self = Some s → headers self = Some hs →
  __get_user_id (self, w) =
  match session_get_json s (lookup_request q u hs) w with
  | (inl body, w') => (user_id_of_response body, (self, w'))
  | (inr text, w') =>
      (Raise (FailedToGetTweetsException
         (MessageWith (lit "Failed to get the user id, request excepted with: %s")
            (TransportException text))), (self, w'))
  end.
Proof.
  intros Hq Hu Hs Hhs. unfold __get_user_id.
  rewrite M_bind_run, (getattr_run _ _ _ _ _ Hq).
  rewrite M_bind_run, (getattr_run _ _ _ _ _ Hu).
  rewrite M_bind_run. unfold try_exceptM.
  rewrite M_bind_run, (getattr_run _ _ _ _ _ Hs).
  rewrite M_bind_run, (getattr_run _ _ _ _ _ Hhs).
  rewrite get_json_run. fold (lookup_request q u hs).
  destruct (session_get_json s (lookup_request q u hs) w) as [[body|text] w'];
    [|done].
  unfold lift. by destruct (user_id_of_response body).
Qed.

(** The whole constructor, once the accessors have answered. *)
Lemma new_run (user_arg g b q : pystr) (w w1 : W) :
  credentials w g b q w1 →
  new user_arg w =
  let s := (requests_session w1).1 in
  match session_get_json s (lookup_request q user_arg (session_headers g b))
          (requests_session w1).2 with
  | (inl body, w') =>
      match user_id_of_response body with
      | Return uid => (Return (constructed user_arg g b q s uid), w')
      | Raise e => (Raise e, w')
      end
  | (inr text, w') =>
      (Raise (FailedToGetTweetsException
         (MessageWith (lit "Failed to get the user id, request excepted with: %s")
            (TransportException text))), w')
  end.
Proof.
  intros Hc. unfold new. rewrite (init_run _ _ _ _ _ _ Hc).
  rewrite (get_user_id_run _ _ q user_arg (requests_session w1).1
             (session_headers g b)) by done.
  cbv zeta.
  destruct (session_get_json _ _ _) as [[body|text] w']; [|done].
  by destruct (user_id_of_response body).
Qed.

Lemma tweets_of_timeline_run (timeline_json : json) (tweets : gmap pystr json)
    (ns : list Z) (count : Z) :
  lookup_path tweets_path timeline_json = Some (JDict tweets) →
  mapM int (map fst (map_to_list tweets)) = Return ns →
  tweets_of_timeline timeline_json count =
  try_except
    (mapM (tweet_text (JDict tweets)) (Py.slice_to (Py.sort_reverse ns) count))
    (λ e, match e with
          | KeyError _ =>
              Some (Raise (FailedToGetTweetsException
                             (Message (lit "Failed to get tweets"))))
          | _ => None
          end).
Proof.
  intros Hpath Hns.
  apply lookup_path_cons in Hpath as (g & Hg & Hpath).
  apply lookup_path_cons in Hpath as (t & Ht & [= ->]).
  unfold tweets_of_timeline.
  rewrite Hg, bind_Return, Ht, bind_Return.
  change (keys (JDict tweets)) with (Return (map fst (map_to_list tweets))).
  by rewrite bind_Return, Hns, bind_Return.
Qed.

Lemma mapM_take {A B} (f : A → result B) (l : list A) (r : list B) (n : nat) :
  mapM f l = Return r → mapM f (take n l) = Return (take n r).
Proof.
  revert l r. induction n as [|n IH]; intros [|x l] r Hr; try done.
  - injection Hr as <-. done.
  - rewrite mapM_cons in Hr.
    change (take (S n) (x :: l)) with (x :: take n l). rewrite mapM_cons.
    destruct (f x) as [y|]; [|done].
    destruct (mapM f l) as [k|] eqn:Hk; [|done]. injection Hr as <-.
    by rewrite (IH l k).
Qed.

Lemma mapM_Raise_inv {A B} (f : A → result B) (l : list A) (e : exception) :
  mapM f l = Raise e → ∃ x, x ∈ l ∧ f x = Raise e.
Proof.
  induction l as [|x l IH]; [done|]. rewrite mapM_cons.
  destruct (f x) as [y|e'] eqn:Hx.
  - destruct (mapM f l) as [k|e'']; [done|]. intros [= ->].
    destruct IH as (x' & Hin & Hx'); [done|]. exists x'. split; [by right | done].
  - intros [= ->]. exists x. split; [by left | done].
Qed.

Lemma getitem_raises (v : json) (key : pystr) (e : exception) :
  getitem v key = Raise e → lookup_exception e.
Proof.
  unfold getitem. destruct v as [| | | | | |d]; try by intros [= <-].
  destruct (d !! key); [done | by intros [= <-]].
Qed.

Lemma tweet_text_raises (tweets : json) (n : Z) (e : exception) :
  tweet_text tweets n = Raise e → lookup_exception e.
Proof.
  unfold tweet_text.
  destruct (getitem tweets (Py.str n)) as [p|e1] eqn:H1.
  2:{ intros [= <-]. by eapply getitem_raises. }
  rewrite bind_Return.
  destruct (getitem p (lit "full_text")) as [t|e2] eqn:H2.
  2:{ intros [= <-]. by eapply getitem_raises. }
  rewrite bind_Return. unfold splitlines. by destruct t; intros [= <-].
Qed.

Lemma tweets_of_timeline_raises (timeline_json : json) (count : Z) (e : exception) :
  tweets_of_timeline timeline_json count = Raise e → fetch_exception e.
Proof.
  unfold tweets_of_timeline.
  match goal with |- try_except ?b _ = _ → _ => destruct b as [r|e0] eqn:Hbody end;
    [done|].
  assert (He0 : lookup_exception e0).
  { destruct (getitem timeline_json (lit "globalObjects")) as [g|e1] eqn:H1.
    2:{ injection Hbody as <-. by eapply getitem_raises. }
    rewrite bind_Return in Hbody.
    destruct (getitem g (lit "tweets")) as [t|e2] eqn:H2.
    2:{ injection Hbody as <-. by eapply getitem_raises. }
    rewrite bind_Return in Hbody.
    destruct (keys t) as [ks|e3] eqn:H3.
    2:{ injection Hbody as <-. unfold keys in H3.
        destruct t; try done; by injection H3 as <-. }
    rewrite bind_Return in Hbody.
    destruct (mapM int ks) as [ns|e4] eqn:H4.
    2:{ injection Hbody as <-. apply mapM_Raise_inv in H4 as (k & _ & Hk).
        unfold int in Hk. destruct (Py.int k); [done|]. by injection Hk as <-. }
    rewrite bind_Return in Hbody.
    apply mapM_Raise_inv in Hbody as (n & _ & Hn). by eapply tweet_text_raises. }
  unfold try_except. destruct e0; try done; by intros [= <-].
Qed.

Lemma user_id_of_response_raises (graph_ql_json : json) (e : exception) :
  user_id_of_response graph_ql_json = Raise e → construction_exception e.
Proof.
  unfold user_id_of_response.
  match goal with |- try_except ?b _ = _ → _ => destruct b as [r|e0] eqn:Hbody end;
    [done|].
  assert (He0 : ∃ k, e0 = KeyError k ∨ e0 = TypeError).
  { assert (Hg : ∀ v k e', getitem v k = Raise e' → ∃ k', e' = KeyError k' ∨ e' = TypeError).
    { intros v k e'. unfold getitem. destruct v as [| | | | | |d];
        try (intros [= <-]; exists []; by right).
      destruct (d !! k); [done|]. intros [= <-]. exists k. by left. }
    destruct (getitem graph_ql_json (lit "data")) as [d|e1] eqn:H1.
    2:{ injection Hbody as <-. by eapply Hg. }
    rewrite bind_Return in Hbody.
    destruct (getitem d (lit "user")) as [u|e2] eqn:H2.
    2:{ injection Hbody as <-. by eapply Hg. }
    rewrite bind_Return in Hbody. by eapply Hg. }
  destruct He0 as [k [-> | ->]]; unfold try_except; by intros [= <-].
Qed.

End Runs2.

(** * Further properties of the pure parts *)

Section Pure2.

Lemma splitlines_one_line (s : pystr) :
  no_linebreak s →
  Py.splitlines s = match s with [] => [] | _ :: _ => [s] end.
Proof.
  induction 1 as [|c s Hc Hs IH]; [done|]. simpl. rewrite Hc, IH.
  by destruct s.
Qed.

Lemma normalized_one_line (s : pystr) : no_linebreak s → normalized s = s.
Proof.
  intros Hs. unfold normalized. rewrite splitlines_one_line by done.
  by destruct s.
Qed.

Lemma join_cons_char (sep : pystr) (c : N) (x : pystr) (xs : list pystr) :
  Py.join sep ((c :: x) :: xs) = c :: Py.join sep (x :: xs).
Proof. simpl. by destruct xs. Qed.

Lemma join_nil_cons_length (sep : pystr) (xs : list pystr) :
  List.length (Py.join sep ([] :: xs)) ≤ List.length sep + List.length (Py.join sep xs).
Proof.
  cbn [Py.join]. destruct xs as [|y ys]; [simpl; lia|].
  rewrite app_nil_l, length_app. lia.
Qed.

Lemma normalized_length_aux (n : nat) : ∀ s : pystr,
  List.length s ≤ n → List.length (normalized s) ≤ List.length s.
Proof.
  unfold normalized.
  induction n as [|n IH]; intros [|c s] Hlen; simpl in Hlen; try done; try lia.
  assert (Hs : List.length (Py.join (lit " ") (Py.splitlines s)) ≤ List.length s)
    by (apply IH; lia).
  pose proof (join_nil_cons_length (lit " ") (Py.splitlines s)) as Hj.
  change (List.length (lit " ")) with 1 in Hj.
  cbn [Py.splitlines]. cbn [List.length].
  destruct (Py.is_linebreak c).
  - destruct (c =? 13)%N; [|lia].
    destruct s as [|c' s']; [lia|].
    destruct (c' =? 10)%N; [|lia].
    pose proof (join_nil_cons_length (lit " ") (Py.splitlines s')) as Hj'.
    change (List.length (lit " ")) with 1 in Hj'.
    assert (List.length (Py.join (lit " ") (Py.splitlines s')) ≤ List.length s')
      by (apply IH; simpl in Hlen; lia).
    cbn [List.length]. lia.
  - destruct (Py.splitlines s) as [|line lines]; [simpl; lia|].
    rewrite join_cons_char. cbn [List.length]. lia.
Qed.

Lemma tweets_of_timeline_prefix (timeline_json : json) (c1 c2 : Z)
    (texts : list pystr) :
  tweets_of_timeline timeline_json c2 = Return texts →
  (0 ≤ c1 ≤ c2)%Z →
  tweets_of_timeline timeline_json c1 = Return (take (Z.to_nat c1) texts).
Proof.
  intros Hr Hc.
  apply tweets_of_timeline_Return_inv in Hr as (tweets & ns & Hpath & Hns & Htexts).
  rewrite (tweets_of_timeline_run _ _ _ _ Hpath Hns).
  rewrite slice_to_take in Htexts |- * by lia.
  apply (mapM_take _ _ _ (Z.to_nat c1)) in Htexts.
  rewrite take_take in Htexts.
  replace (Z.to_nat c1 `min` Z.to_nat c2) with (Z.to_nat c1) in Htexts by lia.
  by rewrite Htexts.
Qed.

(** What the second half of [get_tweets] computes once every key is a
    canonical id, whatever the posts are. *)
Lemma tweets_of_canonical (timeline_json : json) (tweets : gmap pystr json) :
  lookup_path tweets_path timeline_json = Some (JDict tweets) →
  (∀ k, is_Some (tweets !! k) → canonical_key k) →
  ∃ ids : list Z,
    StronglySorted Z.gt ids
    ∧ (∀ n, n ∈ ids ↔ is_Some (tweets !! Py.str n))
    ∧ ∀ count, tweets_of_timeline timeline_json count =
        try_except (mapM (tweet_text (JDict tweets)) (Py.slice_to ids count))
          except_KeyError.
Proof.
  intros Hpath Hcanon.
  set (ks := map fst (map_to_list tweets)).
  assert (Hks : ∀ k, k ∈ ks ↔ is_Some (tweets !! k)).
  { intros k. unfold ks. rewrite list_elem_of_fmap. split.
    - intros ([k' v] & -> & Hkv%elem_of_map_to_list). by exists v.
    - intros [v Hv]. exists (k, v). split; [done|]. by apply elem_of_map_to_list. }
  destruct (int_canonical ks) as (ns & Hns & Hstr).
  { apply Forall_forall. intros k Hk%Hks. by apply Hcanon. }
  exists (Py.sort_reverse ns). split.
  { apply sort_reverse_strict, (NoDup_fmap_1 Py.str). rewrite <- Hstr.
    apply NoDup_fst_map_to_list. }
  split.
  { intros n. rewrite sort_reverse_perm, <- Hks, Hstr, list_elem_of_fmap. split.
    - intros Hn. by exists n.
    - by intros (m & ->%str_inj & Hm). }
  intros count. apply (tweets_of_timeline_run _ _ _ _ Hpath Hns).
Qed.

Lemma mapM_KeyError {A B} (f : A → result B) (l : list A) :
  (∀ x, x ∈ l → (∃ y, f x = Return y) ∨ (∃ k, f x = Raise (KeyError k))) →
  (∃ x, x ∈ l ∧ ∃ k, f x = Raise (KeyError k)) →
  ∃ k, mapM f l = Raise (KeyError k).
Proof.
  induction l as [|x l IH]; intros Hall (x0 & Hin & k0 & Hx0).
  { by apply elem_of_nil in Hin. }
  rewrite mapM_cons.
  destruct (Hall x ltac:(left)) as [[y Hy] | [k Hk]]; [|rewrite Hk; by eauto].
  rewrite Hy. apply elem_of_cons in Hin as [-> | Hin]; [congruence|].
  destruct IH as [k Hk]; [intros; apply Hall; by right | by eauto |].
  rewrite Hk. by eauto.
Qed.

Lemma tweet_text_textless (tweets : gmap pystr json) (n : Z) (v : json) :
  tweets !! Py.str n = Some v → textless v →
  tweet_text (JDict tweets) n = Raise (KeyError (lit "full_text")).
Proof.
  intros Hv (fields & -> & Hnone). unfold tweet_text.
  by rewrite getitem_dict, Hv, bind_Return, getitem_dict, Hnone.
Qed.

Lemma int_unparsable (ks : list pystr) :
  (∃ k, k ∈ ks ∧ Py.int k = None) → mapM int ks = Raise ValueError.
Proof.
  intros (k & Hin & Hk).
  destruct (mapM int ks) as [ns|e] eqn:Hm.
  - apply mapM_Return_inv in Hm. apply list_elem_of_lookup_1 in Hin as [i Hi].
    destruct (Forall2_lookup_l _ _ _ i k Hm Hi) as (n & _ & Hn).
    unfold int in Hn. by rewrite Hk in Hn.
  - apply mapM_Raise_inv in Hm as (k' & _ & Hk'). unfold int in Hk'.
    destruct (Py.int k'); [done|]. by injection Hk' as <-.
Qed.

Lemma strictly_sorted_unique (l1 l2 : list Z) (tweets : gmap pystr json) :
  StronglySorted Z.gt l1 → StronglySorted Z.gt l2 →
  (∀ n, n ∈ l1 ↔ is_Some (tweets !! Py.str n)) →
  (∀ n, n ∈ l2 ↔ is_Some (tweets !! Py.str n)) →
  l1 = l2.
Proof.
  intros H1 H2 Hm1 Hm2.
  apply (StronglySorted_unique_strong Z.gt); [intros; lia | done | done |].
  apply NoDup_Permutation; [by apply strictly_sorted_NoDup..|].
  intros n. by rewrite Hm1, Hm2.
Qed.

End Pure2.

(** * Further properties of the client *)

Section Further.
Context `{World W}.

(** X1.  When the timeline request raises, [get_tweets] raises
    [FailedToGetTweetsException] whose message is built from the text of
    that exception, and leaves the instance as it was. *)
Theorem get_tweets_request_failure (self : GetTweetsAPI) (w w' : W)
    (uid : json) (s : session) (hs : gmap pystr pystr) (text : pystr) (count : Z) :
  user_id self = Some uid → s_twitter self = Some s → headers self = Some hs →
  session_get_json s (timeline_request uid hs) w = (inr text, w') →
  get_tweets count (self, w) =
    (Raise (FailedToGetTweetsException
       (MessageWith (lit "Failed to get tweets, request excepted with: %s")
          (TransportException text))), (self, w')).
Proof.
  intros Huid Hs Hhs Hget.
  unfold get_tweets. rewrite M_bind_run. unfold try_exceptM.
  rewrite M_bind_run, (getattr_run _ _ _ _ _ Huid).
  rewrite M_bind_run, (getattr_run _ _ _ _ _ Hs).
  rewrite M_bind_run, (getattr_run _ _ _ _ _ Hhs).
  rewrite get_json_run. fold (timeline_request uid hs). by rewrite Hget.
Qed.

(** X2.  When the accessors succeed and the lookup request raises, the
    constructor raises [FailedToGetTweetsException] whose message is built
    from the text of that exception, and hands out no instance. *)
Theorem construction_request_failure (user_arg g b q text : pystr) (w w1 w' : W) :
  credentials w g b q w1 →
  session_get_json (requests_session w1).1
    (lookup_request q user_arg (session_headers g b)) (requests_session w1).2
    = (inr text, w') →
  new user_arg w =
    (Raise (FailedToGetTweetsException
       (MessageWith (lit "Failed to get the user id, request excepted with: %s")
          (TransportException text))), w').
Proof. intros Hc Hget. rewrite (new_run _ _ _ _ _ _ Hc). cbv zeta. by rewrite Hget. Qed.

(** X3.  When the accessors return [g], [b], [q] and the lookup response
    holds [uid] at [data.user.rest_id], the constructor returns the
    instance whose attributes are the screen name, the three tokens, the
    session, the session headers and [uid]. *)
Theorem construction_succeeds (user_arg g b q : pystr) (w w1 w' : W)
    (body uid : json) :
  credentials w g b q w1 →
  session_get_json (requests_session w1).1
    (lookup_request q user_arg (session_headers g b)) (requests_session w1).2
    = (inl body, w') →
  lookup_path rest_id_path body = Some uid →
  new user_arg w =
    (Return (constructed user_arg g b q (requests_session w1).1 uid), w').
Proof.
  intros Hc Hget Hpath. rewrite (new_run _ _ _ _ _ _ Hc). cbv zeta.
  by rewrite Hget, (user_id_present _ _ Hpath).
Qed.

(** X4.  When the lookup response is made of objects and one of them
    lacks the next key of [data.user.rest_id], the constructor raises
    [FailedToGetTweetsException] with the fixed message about the missing
    [rest_id]. *)
Theorem construction_missing_rest_id (user_arg g b q : pystr) (w w1 w' : W)
    (body : json) :
  credentials w g b q w1 →
  session_get_json (requests_session w1).1
    (lookup_request q user_arg (session_headers g b)) (requests_session w1).2
    = (inl body, w') →
  missing_key rest_id_path body →
  new user_arg w =
    (Raise (FailedToGetTweetsException (Message
       (lit "Failed to get the user id, could not find user rest_id in GraphQL response"))),
     w').
Proof.
  intros Hc Hget Hmiss. rewrite (new_run _ _ _ _ _ _ Hc). cbv zeta.
  by rewrite Hget, (user_id_missing_key _ Hmiss).
Qed.

(** X5.  When the timeline response is made of objects and one of them
    lacks the next key of [globalObjects.tweets], [get_tweets] raises
    [FailedToGetTweetsException('Failed to get tweets')]. *)
Theorem get_tweets_missing_tweets (self : GetTweetsAPI) (w w' : W)
    (timeline_json : json) (count : Z) :
  answered self w timeline_json w' →
  missing_key tweets_path timeline_json →
  get_tweets count (self, w) =
    (Raise (FailedToGetTweetsException (Message (lit "Failed to get tweets"))),
     (self, w')).
Proof.
  intros Hans Hmiss.
  by rewrite (get_tweets_answered _ _ _ _ _ Hans), (tweets_missing_key _ _ Hmiss).
Qed.

(** X6.  Whatever the instance, the world and the count, an exception
    that leaves [get_tweets] is a [FailedToGetTweetsException], a
    [TypeError], a [ValueError] or an [AttributeError]: never a [KeyError]
    and never the exception of the transport. *)
Theorem get_tweets_escaping_exceptions (self : GetTweetsAPI) (w : W) (count : Z)
    (e : exception) (st' : GetTweetsAPI * W) :
  get_tweets count (self, w) = (Raise e, st') → fetch_exception e.
Proof.
  unfold get_tweets. rewrite M_bind_run. unfold try_exceptM.
  rewrite M_bind_run. unfold getattr at 1. simpl.
  destruct (user_id self) as [uid|]; [|by intros [= <- _]].
  rewrite M_bind_run. unfold getattr at 1. simpl.
  destruct (s_twitter self) as [s|]; [|by intros [= <- _]].
  rewrite M_bind_run. unfold getattr at 1. simpl.
  destruct (headers self) as [hs|]; [|by intros [= <- _]].
  rewrite get_json_run.
  destruct (session_get_json _ _ w) as [[body|text] w']; [|by intros [= <- _]].
  unfold lift. intros [= Hr _]. by eapply tweets_of_timeline_raises.
Qed.

(** X7.  An exception that leaves the constructor is a
    [FailedToGetTweetsException] or a [TypeError]; in particular no
    attribute is read before it is assigned. *)
Theorem construction_escaping_exceptions (user_arg : pystr) (w w' : W)
    (e : exception) :
  new user_arg w = (Raise e, w') → construction_exception e.
Proof.
  destruct (accessors_outcome w) as [(cause & w1 & Hf) | (g & b & q & w1 & Hc)].
  - unfold new. rewrite (init_fails _ _ _ _ Hf). by intros [= <- _].
  - rewrite (new_run _ _ _ _ _ _ Hc). cbv zeta.
    destruct (session_get_json _ _ _) as [[body|text] w2]; [|by intros [= <- _]].
    destruct (user_id_of_response body) as [uid|e'] eqn:He; [done|].
    intros [= <- _]. by eapply user_id_of_response_raises.
Qed.

(** X8.  On a well-formed timeline response a negative [count] cuts from
    the end, as Python slices do: the texts of all posts but the
    [-count] oldest are returned, newest first. *)
Theorem get_tweets_negative_count (self : GetTweetsAPI) (w w' : W)
    (timeline_json : json) (tweets : gmap pystr json) (count : Z) :
  answered self w timeline_json w' →
  well_formed_timeline timeline_json tweets →
  (count < 0)%Z →
  ∃ ids : list Z,
    StronglySorted Z.gt ids
    ∧ (∀ n, n ∈ ids ↔ is_Some (tweets !! Py.str n))
    ∧ List.length ids = size tweets
    ∧ get_tweets count (self, w) =
        (Return ((λ n, normalized (full_text_of tweets n))
                   <$> take (List.length ids - Z.to_nat (- count)) ids),
         (self, w')).
Proof.
  intros Hans Hwf Hcount.
  destruct (tweets_of_well_formed _ _ Hwf) as (ids & Hsorted & Hmem & Hlen & Hrun).
  exists ids. do 3 (split; [done|]).
  rewrite (get_tweets_answered _ _ _ _ _ Hans), Hrun. unfold Py.slice_to.
  destruct (Z.ltb_spec count 0); [|lia]. do 4 f_equal. lia.
Qed.

(** X9.  If a fetch with [c2] returns, a fetch with a smaller
    non-negative [c1] that receives the same response returns the first
    [c1] of those texts. *)
Theorem get_tweets_smaller_count_prefix (self : GetTweetsAPI) (w w1 v v1 : W)
    (timeline_json : json) (c1 c2 : Z) (texts : list pystr)
    (st : GetTweetsAPI * W) :
  answered self w timeline_json w1 →
  get_tweets c2 (self, w) = (Return texts, st) →
  answered self v timeline_json v1 →
  (0 ≤ c1 ≤ c2)%Z →
  get_tweets c1 (self, v) = (Return (take (Z.to_nat c1) texts), (self, v1)).
Proof.
  intros Hans Hrun Hans' Hc.
  rewrite (get_tweets_answered _ _ _ _ _ Hans) in Hrun. injection Hrun as Hrun _.
  rewrite (get_tweets_answered _ _ _ _ _ Hans').
  by rewrite (tweets_of_timeline_prefix _ _ _ _ Hrun Hc).
Qed.

(** X10.  The text of a post that contains no line break is emitted
    unchanged. *)
Theorem one_line_text_unchanged (tweets fields : gmap pystr json) (n : Z)
    (text : pystr) :
  tweets !! Py.str n = Some (JDict fields) →
  fields !! lit "full_text" = Some (JStr text) →
  no_linebreak text →
  tweet_text (JDict tweets) n = Return text.
Proof.
  intros Hpost Htext Hline. unfold tweet_text.
  rewrite getitem_dict, Hpost, bind_Return, getitem_dict, Htext, bind_Return.
  simpl. f_equal. by apply normalized_one_line.
Qed.

(** X11.  Only the posts that are returned are read: when every key is a
    canonical id and the posts with the [count] largest ids are well
    formed, [get_tweets count] returns their texts, whatever the older
    entries are.  [ids] is the list of all ids, largest first. *)
Theorem get_tweets_ignores_posts_beyond_count (self : GetTweetsAPI) (w w' : W)
    (timeline_json : json) (tweets : gmap pystr json) (count : Z)
    (ids : list Z) :
  answered self w timeline_json w' →
  lookup_path tweets_path timeline_json = Some (JDict tweets) →
  (∀ k, is_Some (tweets !! k) → canonical_key k) →
  (0 ≤ count)%Z →
  StronglySorted Z.gt ids →
  (∀ n, n ∈ ids ↔ is_Some (tweets !! Py.str n)) →
  (∀ n v, n ∈ take (Z.to_nat count) ids →
          tweets !! Py.str n = Some v → is_post v) →
  get_tweets count (self, w) =
    (Return ((λ n, normalized (full_text_of tweets n))
               <$> take (Z.to_nat count) ids), (self, w')).
Proof.
  intros Hans Hpath Hcanon Hcount Hsorted Hmem Hposts.
  destruct (tweets_of_canonical _ _ Hpath Hcanon) as (ids0 & Hsorted0 & Hmem0 & Hrun).
  rewrite (strictly_sorted_unique ids0 ids tweets) in Hrun by done.
  rewrite (get_tweets_answered _ _ _ _ _ Hans), Hrun.
  rewrite slice_to_take by done. erewrite mapM_Return; [done|].
  intros n Hn. destruct (proj1 (Hmem n)) as [v Hv].
  { by apply elem_of_take in Hn as (? & ?%list_elem_of_lookup_2 & ?). }
  apply (tweet_text_post _ _ v Hv). by apply (Hposts n v).
Qed.

(** X12.  One post without [full_text] among those to be returned fails
    the whole fetch: when every key is a canonical id, the posts with the
    [count] largest ids are objects whose [full_text], if any, is a
    string, and one of them has none, [get_tweets count] raises
    [FailedToGetTweetsException('Failed to get tweets')].  [ids] is the
    list of all ids, largest first. *)
Theorem get_tweets_post_without_full_text (self : GetTweetsAPI) (w w' : W)
    (timeline_json : json) (tweets : gmap pystr json) (count : Z)
    (ids : list Z) (n0 : Z) (v0 : json) :
  answered self w timeline_json w' →
  lookup_path tweets_path timeline_json = Some (JDict tweets) →
  (∀ k, is_Some (tweets !! k) → canonical_key k) →
  (0 ≤ count)%Z →
  StronglySorted Z.gt ids →
  (∀ n, n ∈ ids ↔ is_Some (tweets !! Py.str n)) →
  (∀ n v, n ∈ take (Z.to_nat count) ids →
          tweets !! Py.str n = Some v → is_post v ∨ textless v) →
  n0 ∈ take (Z.to_nat count) ids →
  tweets !! Py.str n0 = Some v0 → textless v0 →
  get_tweets count (self, w) =
    (Raise (FailedToGetTweetsException (Message (lit "Failed to get tweets"))),
     (self, w')).
Proof.
  intros Hans Hpath Hcanon Hcount Hsorted Hmem Hposts Hin0 Hv0 Hless.
  destruct (tweets_of_canonical _ _ Hpath Hcanon) as (ids0 & Hsorted0 & Hmem0 & Hrun).
  rewrite (strictly_sorted_unique ids0 ids tweets) in Hrun by done.
  rewrite (get_tweets_answered _ _ _ _ _ Hans), Hrun.
  rewrite slice_to_take by done.
  destruct (mapM_KeyError (tweet_text (JDict tweets)) (take (Z.to_nat count) ids))
    as [k Hk].
  - intros n Hn. destruct (proj1 (Hmem n)) as [v Hv].
    { by apply elem_of_take in Hn as (? & ?%list_elem_of_lookup_2 & ?). }
    destruct (Hposts n v Hn Hv) as [Hpost | Hl].
    + left. eexists. by apply (tweet_text_post _ _ v).
    + right. eexists. by apply (tweet_text_textless _ _ v).
  - exists n0. split; [done|]. eexists. by apply (tweet_text_textless _ _ v0).
  - by rewrite Hk.
Qed.

(** X13.  Every instance the constructor hands out has all its
    attributes assigned: [user] is the argument, and [headers] are the
    session headers of the stored guest and bearer tokens, which are the
    ones the accessors returned. *)
Theorem constructed_instance_invariant (user_arg : pystr) (w w' : W)
    (self : GetTweetsAPI) :
  new user_arg w = (Return self, w') →
  ∃ (g b q : pystr) (w1 : W) (s : session) (uid : json),
    credentials w g b q w1
    ∧ self = constructed user_arg g b q s uid.
Proof.
  destruct (accessors_outcome w) as [(cause & w1 & Hf) | (g & b & q & w1 & Hc)].
  - unfold new. by rewrite (init_fails _ _ _ _ Hf).
  - rewrite (new_run _ _ _ _ _ _ Hc). cbv zeta.
    destruct (session_get_json _ _ _) as [[body|text] w2]; [|done].
    destruct (user_id_of_response body) as [uid|e']; [|done].
    intros [= <- _]. by exists g, b, q, w1, (requests_session w1).1, uid.
Qed.

(** X14.  Rejoining the lines of a text never makes it longer. *)
Theorem normalized_not_longer (s : pystr) :
  List.length (normalized s) ≤ List.length s.
Proof. by apply (normalized_length_aux (List.length s)). Qed.

(** X15.  Construction followed by a fetch: when the accessors succeed,
    the lookup response holds [uid] at [data.user.rest_id] and the
    timeline request for [uid] - sent with the session headers - is
    answered by a well-formed response, the fetch on the new instance
    returns the texts of the [count] newest posts, newest first. *)
Theorem construct_then_fetch (user_arg g b q : pystr) (w w1 w2 w3 : W)
    (body uid timeline_json : json) (tweets : gmap pystr json) (count : Z) :
  credentials w g b q w1 →
  session_get_json (requests_session w1).1
    (lookup_request q user_arg (session_headers g b)) (requests_session w1).2
    = (inl body, w2) →
  lookup_path rest_id_path body = Some uid →
  session_get_json (requests_session w1).1
    (timeline_request uid (session_headers g b)) w2 = (inl timeline_json, w3) →
  well_formed_timeline timeline_json tweets →
  (0 ≤ count)%Z →
  ∃ (self : GetTweetsAPI) (ids : list Z),
    new user_arg w = (Return self, w2)
    ∧ StronglySorted Z.gt ids
    ∧ (∀ n, n ∈ ids ↔ is_Some (tweets !! Py.str n))
    ∧ get_tweets count (self, w2) =
        (Return ((λ n, normalized (full_text_of tweets n))
                   <$> take (Z.to_nat count) ids), (self, w3)).
Proof.
  intros Hc Hlookup Hpath Htimeline Hwf Hcount.
  destruct (tweets_of_well_formed _ _ Hwf) as (ids & Hsorted & Hmem & _ & Hrun).
  exists (constructed user_arg g b q (requests_session w1).1 uid), ids.
  split.
  { rewrite (new_run _ _ _ _ _ _ Hc). cbv zeta.
    by rewrite Hlookup, (user_id_present _ _ Hpath). }
  do 2 (split; [done|]).
  rewrite (get_tweets_answered _ _ _ w3 timeline_json).
  - by rewrite Hrun, slice_to_take.
  - by exists uid, (requests_session w1).1, (session_headers g b).
Qed.

(** X16.  Every key is parsed before the cut: when one key of the tweets
    object is no integer literal, [get_tweets] raises [ValueError] for
    every [count], zero included. *)
Theorem get_tweets_unparsable_key (self : GetTweetsAPI) (w w' : W)
    (timeline_json : json) (tweets : gmap pystr json) (k : pystr) (count : Z) :
  answered self w timeline_json w' →
  lookup_path tweets_path timeline_json = Some (JDict tweets) →
  is_Some (tweets !! k) → Py.int k = None →
  get_tweets count (self, w) = (Raise ValueError, (self, w')).
Proof.
  intros Hans Hpath [v Hv] Hk.
  rewrite (get_tweets_answered _ _ _ _ _ Hans).
  apply lookup_path_cons in Hpath as (g & Hg & Hpath).
  apply lookup_path_cons in Hpath as (t & Ht & [= ->]).
  unfold tweets_of_timeline. rewrite Hg, bind_Return, Ht, bind_Return.
  change (keys (JDict tweets)) with (Return (map fst (map_to_list tweets))).
  rewrite bind_Return, int_unparsable; [done|].
  exists k. split; [|done]. apply list_elem_of_fmap. exists (k, v).
  split; [done | by apply elem_of_map_to_list].
Qed.

End Further.

(** * The further properties on concrete responses *)

Section Runs3.

Lemma example_credentials (w : script) :
  guest_answer w = Value (lit "gt0") → bearer_answer w = Value (lit "AAAA") →
  query_answer w = Value (lit "q1") →
  credentials w (lit "gt0") (lit "AAAA") (lit "q1") w.
Proof. intros Hg Hb Hq. exists w, w. simpl. by rewrite Hg, Hb, Hq. Qed.

Lemma posts_example_ids (n : Z) :
  n ∈ [103; 102; 101]%Z ↔ is_Some (posts_example !! Py.str n).
Proof.
  split.
  - intros Hn. repeat (apply elem_of_cons in Hn as [-> | Hn]; [vm_compute; by eexists|]).
    by apply elem_of_nil in Hn.
  - intros [v Hv]. unfold posts_example in Hv.
    apply lookup_insert_Some in Hv as [[Hk _] | [_ Hv]].
    { apply (str_inj 103) in Hk as <-. by left. }
    apply lookup_insert_Some in Hv as [[Hk _] | [_ Hv]].
    { apply (str_inj 101) in Hk as <-. by right; right; left. }
    apply lookup_singleton_Some in Hv as [Hk _].
    apply (str_inj 102) in Hk as <-. by right; left.
Qed.

Lemma posts_old_malformed_canonical (k : pystr) :
  is_Some (posts_old_malformed !! k) → canonical_key k.
Proof.
  intros [v Hv]. unfold posts_old_malformed in Hv.
  apply lookup_insert_Some in Hv as [[<- _] | [_ Hv]]; [by exists 103%Z|].
  apply lookup_insert_Some in Hv as [[<- _] | [_ Hv]]; [by exists 101%Z|].
  apply lookup_singleton_Some in Hv as [<- _]. by exists 102%Z.
Qed.

Lemma posts_old_malformed_ids (n : Z) :
  n ∈ [103; 102; 101]%Z ↔ is_Some (posts_old_malformed !! Py.str n).
Proof.
  split.
  - intros Hn. repeat (apply elem_of_cons in Hn as [-> | Hn]; [vm_compute; by eexists|]).
    by apply elem_of_nil in Hn.
  - intros [v Hv]. unfold posts_old_malformed in Hv.
    apply lookup_insert_Some in Hv as [[Hk _] | [_ Hv]].
    { apply (str_inj 103) in Hk as <-. by left. }
    apply lookup_insert_Some in Hv as [[Hk _] | [_ Hv]].
    { apply (str_inj 101) in Hk as <-. by right; right; left. }
    apply lookup_singleton_Some in Hv as [Hk _].
    apply (str_inj 102) in Hk as <-. by right; left.
Qed.

Lemma posts_one_without_text_canonical (k : pystr) :
  is_Some (posts_one_without_text !! k) → canonical_key k.
Proof.
  intros [v Hv]. unfold posts_one_without_text in Hv.
  apply lookup_insert_Some in Hv as [[<- _] | [_ Hv]]; [by exists 103%Z|].
  apply lookup_singleton_Some in Hv as [<- _]. by exists 102%Z.
Qed.

Lemma posts_one_without_text_ids (n : Z) :
  n ∈ [103; 102]%Z ↔ is_Some (posts_one_without_text !! Py.str n).
Proof.
  split.
  - intros Hn. repeat (apply elem_of_cons in Hn as [-> | Hn]; [vm_compute; by eexists|]).
    by apply elem_of_nil in Hn.
  - intros [v Hv]. unfold posts_one_without_text in Hv.
    apply lookup_insert_Some in Hv as [[Hk _] | [_ Hv]].
    { apply (str_inj 103) in Hk as <-. by left. }
    apply lookup_singleton_Some in Hv as [Hk _].
    apply (str_inj 102) in Hk as <-. by right; left.
Qed.

Lemma sorted_103_102_101 : StronglySorted Z.gt [103; 102; 101]%Z.
Proof. repeat constructor; lia. Qed.

Lemma sorted_103_102 : StronglySorted Z.gt [103; 102]%Z.
Proof. repeat constructor; lia. Qed.

(** Witness of X1: the timeline request times out. *)
Lemma get_tweets_request_failure_witness :
  let w := world_with (inr (lit "timed out")) in
  get_tweets 10 (client_example, w) =
    (Raise (FailedToGetTweetsException
       (MessageWith (lit "Failed to get tweets, request excepted with: %s")
          (TransportException (lit "timed out")))), (client_example, w)).
Proof.
  intros w.
  apply (get_tweets_request_failure client_example w w (JStr (lit "783214")) 0%N
           (session_headers (lit "gt0") (lit "AAAA")) (lit "timed out") 10);
    reflexivity.
Defined.

(** Witness of X2: the lookup request times out. *)
Lemma construction_request_failure_witness :
  let w := world_with_lookup (inr (lit "timed out")) in
  new (lit "jack") w =
    (Raise (FailedToGetTweetsException
       (MessageWith (lit "Failed to get the user id, request excepted with: %s")
          (TransportException (lit "timed out")))), w).
Proof.
  intros w.
  apply (construction_request_failure (lit "jack") (lit "gt0") (lit "AAAA")
           (lit "q1") (lit "timed out") w w w);
    [by apply example_credentials | reflexivity].
Defined.

(** Witness of X3: the lookup answers with rest_id ["783214"]. *)
Lemma construction_succeeds_witness :
  let w := world_with (inl (timeline_of tweets_example)) in
  new (lit "jack") w =
    (Return (constructed (lit "jack") (lit "gt0") (lit "AAAA") (lit "q1") 0%N
               (JStr (lit "783214"))), w).
Proof.
  intros w.
  exact (construction_succeeds (lit "jack") (lit "gt0") (lit "AAAA") (lit "q1")
           w w w lookup_ok (JStr (lit "783214"))
           (example_credentials w eq_refl eq_refl eq_refl) eq_refl eq_refl).
Defined.

(** Witness of X4: the lookup answers [{"data": {}}]. *)
Lemma construction_missing_rest_id_witness :
  let w := world_with_lookup (inl (obj1 "data" (JDict ∅))) in
  new (lit "jack") w =
    (Raise (FailedToGetTweetsException (Message
       (lit "Failed to get the user id, could not find user rest_id in GraphQL response"))),
     w).
Proof.
  intros w.
  apply (construction_missing_rest_id (lit "jack") (lit "gt0") (lit "AAAA")
           (lit "q1") w w w (obj1 "data" (JDict ∅)));
    [by apply example_credentials | reflexivity | by vm_compute].
Defined.

(** Witness of X5: the timeline answers [{"errors": []}]. *)
Lemma get_tweets_missing_tweets_witness :
  let w := world_with (inl (obj1 "errors" (JList []))) in
  get_tweets 10 (client_example, w) =
    (Raise (FailedToGetTweetsException (Message (lit "Failed to get tweets"))),
     (client_example, w)).
Proof.
  intros w.
  apply (get_tweets_missing_tweets client_example w w (obj1 "errors" (JList [])) 10);
    [apply client_example_answered | by vm_compute].
Defined.

(** Witness of X6: the exception of a fetch whose request times out. *)
Lemma get_tweets_escaping_exceptions_witness :
  fetch_exception (FailedToGetTweetsException
    (MessageWith (lit "Failed to get tweets, request excepted with: %s")
       (TransportException (lit "timed out")))).
Proof.
  apply (get_tweets_escaping_exceptions client_example
           (world_with (inr (lit "timed out"))) 10 _
           (client_example, world_with (inr (lit "timed out")))).
  reflexivity.
Defined.

(** Witness of X7: the exception of a construction without bearer token. *)
Lemma construction_escaping_exceptions_witness :
  construction_exception (FailedToGetTweetsException
    (Caught (FailedToGetTwitterValueException (lit "no bearer token in main.js")))).
Proof.
  apply (construction_escaping_exceptions (lit "jack") world_without_bearer
           world_without_bearer).
  reflexivity.
Defined.

(** Witness of X8: [count = -1] on the three posts of the example. *)
Lemma get_tweets_negative_count_witness :
  let w := world_with (inl (timeline_of tweets_example)) in
  ∃ ids : list Z,
    StronglySorted Z.gt ids
    ∧ (∀ n, n ∈ ids ↔ is_Some (posts_example !! Py.str n))
    ∧ List.length ids = size posts_example
    ∧ get_tweets (-1) (client_example, w) =
        (Return ((λ n, normalized (full_text_of posts_example n))
                   <$> take (List.length ids - Z.to_nat (- -1)) ids),
         (client_example, w)).
Proof.
  intros w.
  apply (get_tweets_negative_count client_example w w
           (timeline_of tweets_example) posts_example (-1));
    [apply client_example_answered | apply posts_example_well_formed | lia].
Defined.

(** Witness of X9: a fetch of three, then a fetch of one. *)
Lemma get_tweets_smaller_count_prefix_witness :
  let w := world_with (inl (timeline_of tweets_example)) in
  get_tweets 1 (client_example, w) =
    (Return (take (Z.to_nat 1) [lit "a b"; lit "second"; lit "first"]),
     (client_example, w)).
Proof.
  intros w.
  apply (get_tweets_smaller_count_prefix client_example w w w w
           (timeline_of tweets_example) 1 3
           [lit "a b"; lit "second"; lit "first"] (client_example, w));
    [apply client_example_answered | by vm_compute
     | apply client_example_answered | lia].
Defined.

(** Witness of X10: post 102 of the example. *)
Lemma one_line_text_unchanged_witness :
  tweet_text tweets_example 102 = Return (lit "second").
Proof.
  apply (one_line_text_unchanged posts_example
           {[ lit "full_text" := JStr (lit "second") ]} 102 (lit "second"));
    [by vm_compute | by vm_compute | by repeat constructor].
Defined.

(** Witness of X11: entry 101 is [null], and a fetch of two never reads it. *)
Lemma get_tweets_ignores_posts_beyond_count_witness :
  let w := world_with (inl (timeline_of (JDict posts_old_malformed))) in
  get_tweets 2 (client_example, w) =
    (Return ((λ n, normalized (full_text_of posts_old_malformed n))
               <$> take (Z.to_nat 2) [103; 102; 101]%Z), (client_example, w)).
Proof.
  intros w.
  apply (get_tweets_ignores_posts_beyond_count client_example w w
           (timeline_of (JDict posts_old_malformed)) posts_old_malformed 2
           [103; 102; 101]%Z).
  - apply client_example_answered.
  - by vm_compute.
  - apply posts_old_malformed_canonical.
  - lia.
  - apply sorted_103_102_101.
  - apply posts_old_malformed_ids.
  - intros n v Hn Hv. change (take (Z.to_nat 2) [103; 102; 101]%Z)
      with [103; 102]%Z in Hn.
    apply elem_of_cons in Hn as [-> | Hn].
    { injection Hv as <-. by eexists _, _. }
    apply elem_of_cons in Hn as [-> | Hn]; [|by apply elem_of_nil in Hn].
    injection Hv as <-. by eexists _, _.
Defined.

(** Witness of X12: post 102 has no [full_text]. *)
Lemma get_tweets_post_without_full_text_witness :
  let w := world_with (inl (timeline_of (JDict posts_one_without_text))) in
  get_tweets 2 (client_example, w) =
    (Raise (FailedToGetTweetsException (Message (lit "Failed to get tweets"))),
     (client_example, w)).
Proof.
  intros w.
  apply (get_tweets_post_without_full_text client_example w w
           (timeline_of (JDict posts_one_without_text)) posts_one_without_text 2
           [103; 102]%Z 102 post_without_full_text).
  - apply client_example_answered.
  - by vm_compute.
  - apply posts_one_without_text_canonical.
  - lia.
  - apply sorted_103_102.
  - apply posts_one_without_text_ids.
  - intros n v Hn Hv. change (take (Z.to_nat 2) [103; 102]%Z)
      with [103; 102]%Z in Hn.
    apply elem_of_cons in Hn as [-> | Hn].
    { injection Hv as <-. left. by eexists _, _. }
    apply elem_of_cons in Hn as [-> | Hn]; [|by apply elem_of_nil in Hn].
    injection Hv as <-. right. by eexists.
  - by right; left.
  - by vm_compute.
  - by eexists.
Defined.

(** Witness of X13: the instance constructed in [world_with _]. *)
Lemma constructed_instance_invariant_witness :
  let w := world_with (inl (timeline_of tweets_example)) in
  ∃ (g b q : pystr) (w1 : script) (s : session) (uid : json),
    credentials w g b q w1
    ∧ client_example = constructed (lit "jack") g b q s uid.
Proof.
  intros w.
  apply (constructed_instance_invariant (lit "jack") w w client_example).
  by vm_compute.
Defined.

(** Witness of X15: construction and a fetch of two in the example world. *)
Lemma construct_then_fetch_witness :
  let w := world_with (inl (timeline_of tweets_example)) in
  ∃ (self : GetTweetsAPI) (ids : list Z),
    new (lit "jack") w = (Return self, w)
    ∧ StronglySorted Z.gt ids
    ∧ (∀ n, n ∈ ids ↔ is_Some (posts_example !! Py.str n))
    ∧ get_tweets 2 (self, w) =
        (Return ((λ n, normalized (full_text_of posts_example n))
                   <$> take (Z.to_nat 2) ids), (self, w)).
Proof.
  intros w.
  apply (construct_then_fetch (lit "jack") (lit "gt0") (lit "AAAA") (lit "q1")
           w w w w lookup_ok (JStr (lit "783214")) (timeline_of tweets_example)
           posts_example 2);
    [by apply example_credentials | reflexivity | reflexivity | reflexivity
     | apply posts_example_well_formed | lia].
Defined.

(** Witness of X16: the key ["abc"], with [count = 0]. *)
Lemma get_tweets_unparsable_key_witness :
  let w := world_with (inl (timeline_of (JDict posts_bad_key))) in
  get_tweets 0 (client_example, w) = (Raise ValueError, (client_example, w)).
Proof.
  intros w.
  apply (get_tweets_unparsable_key client_example w w
           (timeline_of (JDict posts_bad_key)) posts_bad_key (lit "abc") 0);
    [apply client_example_answered | by vm_compute | vm_compute; by eexists
     | by vm_compute].
Defined.

End Runs3.
